(** * models.py: classification models over validated numeric arrays

    A shallow embedding of [src/models.py] (BaseModel, LinearModel,
    kNNModel, RBFModel) and the properties of its specification.

    Conventions of the embedding.
    - Floating-point values are modelled by exact rationals [Q]; a
      comparison of the source ([>=], [<], [!=]) is the corresponding
      boolean test on [Q].
    - A Python call either returns a value or raises: [result A].  Each
      exception the source or the libraries it calls can raise is a
      constructor of [exn].
    - Library functions the source calls but does not define
      ([np.linalg.norm], [np.linalg.inv], [math.exp]) are variables of the
      section that uses them; every theorem holds for all of them.
      Executable reference instances live in module [Ref].
    - A point is a rank-1 array ([vec]); a batch of points is a rank-2
      array ([matrix]). *)

From Stdlib Require Import String.
From Stdlib Require Import List ZArith QArith Qabs Bool Lia Lqa Arith.
From Stdlib Require Import Permutation Sorting.Sorted.
Import ListNotations.

Set Implicit Arguments.

(** ** Python exceptions and the result monad *)

Module Py.

(** The exceptions of the program.  The three [ValueError]s raised by the
    shape checks of [BaseModel.__init__] are kept apart from the
    [ValueError]s raised inside numpy or [random]. *)
Inductive exn : Type :=
| ShapeX                      (* ValueError, models.py line 51 *)
| ShapeY                      (* ValueError, models.py line 54 *)
| UnequalDims                 (* ValueError, models.py line 57 *)
| TransformFailed (cause : exn)
                              (* ValueError(f'Feature transform failed\n{e}') *)
| LibValueError               (* ValueError raised by numpy or random *)
| NameError (name : string)
| AttributeError (attr : string)
| TypeError
| IndexError
| LinAlgError                 (* numpy.linalg.LinAlgError *)
| Raised (tag : nat).         (* raised by a callable the caller supplied *)

Inductive result (A : Type) : Type :=
| Ok (a : A)
| Err (e : exn).

Arguments Ok {A} a.
Arguments Err {A} e.

Definition bind {A B} (c : result A) (k : A -> result B) : result B :=
  match c with
  | Ok a => k a
  | Err e => Err e
  end.

Fixpoint mapM {A B} (f : A -> result B) (l : list A) : result (list B) :=
  match l with
  | [] => Ok []
  | a :: l' =>
      bind (f a) (fun b => bind (mapM f l') (fun bs => Ok (b :: bs)))
  end.

(** [try: body / except e: raise ValueError(...)], as the source writes it
    at every feature-transform call.  The handler's class expression is the
    name [e], which is bound nowhere (the clause is not [except ... as e]);
    it is evaluated when the body raises, and that evaluation raises
    [NameError].  The handler body is never entered. *)
Definition try_except_e {A} (body : result A) : result A :=
  match body with
  | Ok a => Ok a
  | Err _ => Err (NameError "e")
  end.

Definition is_Ok {A} (c : result A) : bool :=
  match c with
  | Ok _ => true
  | Err _ => false
  end.

(** The spec's error classes. *)
Definition is_ShapeError (e : exn) : bool :=
  match e with
  | ShapeX | ShapeY | UnequalDims => true
  | _ => false
  end.

Definition is_TransformError (e : exn) : bool :=
  match e with
  | TransformFailed _ => true
  | _ => false
  end.

Definition is_SingularMatrixError (e : exn) : bool :=
  match e with
  | LinAlgError => true
  | _ => false
  end.

End Py.

Import Py.

Declare Scope py_scope.
Notation "x <- c ;; k" := (bind c (fun x => k))
  (at level 61, c at next level, right associativity) : py_scope.
Open Scope py_scope.
Open Scope Q_scope.

(** ** numpy arrays *)

Module Np.

Definition vec := list Q.

(** A rank-2 array: its column count, which the rows cannot give when
    there are none, and its rows, each of that length ([wf]). *)
Record matrix : Type := Mat {
  ncols : nat;
  rows : list vec
}.

(** A float array, by rank.  Arrays of rank 3 and more only ever reach the
    shape checks of [BaseModel.__init__], which reject them, so only their
    rank is kept. *)
Inductive ndarray : Type :=
| A0 (v : Q)
| A1 (v : vec)
| A2 (m : matrix)
| AN (extra_rank : nat).

Definition wf (a : ndarray) : Prop :=
  match a with
  | A2 m => Forall (fun r => length r = ncols m) (rows m)
  | _ => True
  end.

(** [len(a.shape)] *)
Definition ndim (a : ndarray) : nat :=
  match a with
  | A0 _ => 0
  | A1 _ => 1
  | A2 _ => 2
  | AN k => 3 + k
  end.

(** [len(a)]; a rank-0 array has no length.  The length of an array of
    rank 3 or more is not kept: it is never asked for, [len] being called
    after the rank checks. *)
Definition len (a : ndarray) : result nat :=
  match a with
  | A0 _ => Err TypeError
  | A1 v => Ok (length v)
  | A2 m => Ok (length (rows m))
  | AN _ => Ok 0%nat
  end.

(** [for x in a]: the points of a batch.  Only rank-2 arrays are iterated
    for points (the constructors iterate after the shape checks); the
    elements of an array of another rank are not points. *)
Definition iter_rows (a : ndarray) : result (list vec) :=
  match a with
  | A2 m => Ok (rows m)
  | _ => Err TypeError
  end.

(** [np.array(rows)] for a list of rank-1 arrays: an empty list gives the
    empty rank-1 array, rows of one length a rank-2 array, ragged rows
    raise [ValueError]. *)
Definition array_of_rows (rows : list vec) : result ndarray :=
  match rows with
  | [] => Ok (A1 [])
  | r :: _ =>
      if forallb (fun r' => Nat.eqb (length r') (length r)) rows
      then Ok (A2 (Mat (length r) rows))
      else Err LibValueError
  end.

(** [a[i]] on a rank-1 array. *)
Definition getitem1 (a : ndarray) (i : nat) : result Q :=
  match a with
  | A1 v => match nth_error v i with Some q => Ok q | None => Err IndexError end
  | _ => Err IndexError
  end.

(** [a[i]] on a rank-2 array: row [i]. *)
Definition getitem2 (a : ndarray) (i : nat) : result vec :=
  match a with
  | A2 m =>
      match nth_error (rows m) i with
      | Some r => Ok r
      | None => Err IndexError
      end
  | _ => Err IndexError
  end.

Fixpoint map2 (f : Q -> Q -> Q) (a b : vec) : vec :=
  match a, b with
  | x :: a', y :: b' => f x y :: map2 f a' b'
  | _, _ => []
  end.

(** [a - b] on rank-1 arrays, with numpy's broadcasting of a length-1
    operand; other length mismatches raise [ValueError]. *)
Definition sub (a b : vec) : result vec :=
  if Nat.eqb (length a) (length b) then Ok (map2 Qminus a b)
  else match a, b with
       | [s], _ => Ok (map (fun v => s - v) b)
       | _, [s] => Ok (map (fun v => v - s) a)
       | _, _ => Err LibValueError
       end.

(** [np.sum] of a rank-1 array, also Python's [sum] from 0. *)
Definition sum (v : vec) : Q := fold_right Qplus 0 v.

(** [np.dot(a, b)] and [a @ b] on rank-1 arrays. *)
Definition dot (a b : vec) : result Q :=
  if Nat.eqb (length a) (length b) then Ok (sum (map2 Qmult a b))
  else Err LibValueError.

Definition Qltb (a b : Q) : bool := negb (Qle_bool b a).

(** [pred[pred >= 0] = 1] and [pred[pred < 0] = -1], in that order. *)
Definition set_nonneg_to_one (p : vec) : vec :=
  map (fun v => if Qle_bool 0 v then 1 else v) p.

Definition set_neg_to_minus_one (p : vec) : vec :=
  map (fun v => if Qltb v 0 then - (1) else v) p.

Definition sign_inplace (p : vec) : vec :=
  set_neg_to_minus_one (set_nonneg_to_one p).

(** [X @ w] for an array [X] and a rank-1 [w]: a rank-2 [X] gives the
    rank-1 array of row products, a rank-1 [X] a scalar; the contracted
    dimensions must agree, and a rank-0 operand is refused.  No array of
    rank 3 or more is ever stored in a model or passed as a batch. *)
Definition matmul_vec (X : ndarray) (w : vec) : result ndarray :=
  match X with
  | A2 m =>
      if Nat.eqb (ncols m) (length w)
      then Ok (A1 (map (fun r => sum (map2 Qmult r w)) (rows m)))
      else Err LibValueError
  | A1 v => q <- dot v w ;; Ok (A0 q)
  | _ => Err LibValueError
  end.

(** [w += v] on a rank-1 [w]: [v] has the length of [w] or length 1. *)
Definition iadd (w v : vec) : result vec :=
  if Nat.eqb (length w) (length v) then Ok (map2 Qplus w v)
  else match v with
       | [s] => Ok (map (fun a => a + s) w)
       | _ => Err LibValueError
       end.

(** The truth value of [w != None] for an array [w], as [if] takes it:
    the comparison is elementwise and every element differs from [None];
    an array of two or more elements has no truth value ([ValueError]),
    the empty array is false. *)
Definition ne_None_truth (w : vec) : result bool :=
  match w with
  | [] => Ok false
  | [_] => Ok true
  | _ => Err LibValueError
  end.

(** A float scalar numpy computes: a number, or what a division by zero
    leaves. *)
Inductive npfloat : Type :=
| Fin (q : Q)
| NaN
| PosInf
| NegInf.

(** [s / n] for a float scalar [s] and the integer [n = len(...)]: a zero
    divisor gives [nan] or an infinity (with a warning), not an
    exception. *)
Definition true_divide (s : Q) (n : nat) : npfloat :=
  match n with
  | O => if Qeq_bool s 0 then NaN
         else if Qle_bool 0 s then PosInf else NegInf
  | S _ => Fin (s / inject_Z (Z.of_nat n))
  end.

(** *** Matrices as lists of rows *)

Definition col (j : nat) (M : list vec) : vec :=
  map (fun r => nth j r 0) M.

(** [M.T] of a matrix with [d] columns. *)
Definition transpose (d : nat) (M : list vec) : list vec :=
  map (fun j => col j M) (seq 0 d).

(** [A @ B], [B] having [d] columns. *)
Definition matmul (A : list vec) (d : nat) (B : list vec) : list vec :=
  map (fun a => map (fun j => sum (map2 Qmult a (col j B))) (seq 0 d)) A.

(** [M @ v] *)
Definition matvec (M : list vec) (v : vec) : vec :=
  map (fun r => sum (map2 Qmult r v)) M.

Definition mat_add (A B : list vec) : list vec :=
  map (fun ab => map2 Qplus (fst ab) (snd ab)) (combine A B).

Definition mat_scale (c : Q) (A : list vec) : list vec :=
  map (map (Qmult c)) A.

(** [np.eye(n)] *)
Definition eye (n : nat) : list vec :=
  map (fun i => map (fun j => if Nat.eqb i j then 1 else 0) (seq 0 n))
      (seq 0 n).

(** *** Python sequences *)

(** [l[:k]]: a negative [k] counts from the end. *)
Definition slice_to {A} (k : Z) (l : list A) : list A :=
  if (k <? 0)%Z then firstn (length l - Z.to_nat (- k)) l
  else firstn (Z.to_nat k) l.

(** [sorted(l)]: a stable sort that compares with [<] only.  [insert]
    puts an element before the first one that is not smaller than it, so
    elements that compare equal keep their order. *)
Fixpoint insert {A} (lt : A -> A -> bool) (a : A) (l : list A) : list A :=
  match l with
  | [] => [a]
  | b :: l' => if lt b a then b :: insert lt a l' else a :: b :: l'
  end.

Fixpoint sorted {A} (lt : A -> A -> bool) (l : list A) : list A :=
  match l with
  | [] => []
  | a :: l' => insert lt a (sorted lt l')
  end.

(** [p < q] on pairs of floats, as Python compares tuples: the first
    components that differ decide. *)
Definition tuple_lt (p q : Q * Q) : bool :=
  if Qeq_bool (fst p) (fst q)
  then (if Qeq_bool (snd p) (snd q) then false else Qltb (snd p) (snd q))
  else Qltb (fst p) (fst q).

(** The order [sorted] leaves a list of pairs in: ascending first
    components, equal first components by ascending second component. *)
Definition tuple_le (p q : Q * Q) : Prop :=
  fst p < fst q \/ (fst p == fst q /\ snd p <= snd q).

End Np.

Import Np.

(** ** BaseModel *)

Module Base.

(** A feature transform: a callable on one point, which may raise. *)
Definition transform := vec -> result vec.

Record BaseModel : Type := mkBase {
  X : ndarray;
  y : ndarray;
  feat_trans : option transform
}.

(** [BaseModel.__init__], lines 47-68.  [X] and [y] are the arrays
    [np.array(X, dtype='float')] and [np.array(y, dtype='float')]. *)
Definition init (X y : ndarray) (feat_trans : option transform)
  : result BaseModel :=
  if negb (Nat.eqb (ndim X) 2) then Err ShapeX
  else if negb (Nat.eqb (ndim y) 1) then Err ShapeY
  else
    lx <- len X ;;
    ly <- len y ;;
    if negb (Nat.eqb lx ly) then Err UnequalDims
    else
      X' <- match feat_trans with
            | Some f =>
                try_except_e (rows <- iter_rows X ;;
                              rows' <- mapM f rows ;;
                              array_of_rows rows')
            | None => Ok X
            end ;;
      Ok (mkBase X' y feat_trans).

End Base.

(** ** LinearModel *)

Module Linear.

Import Base.

Record LinearModel : Type := mkLinear {
  X : ndarray;
  y : ndarray;
  feat_trans : option transform;
  r : Q;
  _debug : bool;
  _n_iter : Z;
  w : option vec            (* [None]: the attribute is not set *)
}.

(** [self.w] *)
Definition get_w (self : LinearModel) : result vec :=
  match w self with
  | Some v => Ok v
  | None => Err (AttributeError "w")
  end.

(** A name that is neither a local of the function nor a global of the
    module. *)
Definition unbound_name (A : Type) (name : string) : result A :=
  Err (NameError name).

(** [np.asfarray(np.column_stack((np.ones_like(self.X.shape[0]), self.X)))],
    lines 122-123.  [np.ones_like] of the integer [self.X.shape[0]] is the
    rank-0 array 1, which [column_stack] turns into the 1x1 matrix [[1]];
    stacking it beside [X] needs [X] to have exactly one row. *)
Definition column_stack_ones_like (X : ndarray) : result ndarray :=
  match X with
  | A0 _ => Err IndexError
  | A1 [v] => Ok (A2 (Mat 2 [[1; v]]))
  | A2 (Mat d [row]) => Ok (A2 (Mat (S d) [1 :: row]))
  | _ => Err LibValueError
  end.

Section WithNumpy.

(** [np.linalg.inv]: [None] when it raises [LinAlgError]. *)
Variable inv : list vec -> option (list vec).

(** [LinearModel._calc_w_lin], lines 177-179. *)
Definition _calc_w_lin (self : LinearModel) : result vec :=
  match X self, y self with
  | A2 (Mat n rows), A1 yv =>
      let Xt := transpose n rows in
      match inv (mat_add (matmul Xt n rows) (mat_scale (r self) (eye n))) with
      | Some Mi => Ok (matvec (matmul Mi (length rows) Xt) yv)
      | None => Err LinAlgError
      end
  | A2 _, _ => Err LibValueError
  | AN _, _ => Err LibValueError
  | _, _ => Err IndexError
  end.

(** [LinearModel._calc_E_in], lines 196-200. *)
Definition _calc_E_in (self : LinearModel) (w : option vec) : result Q :=
  w <- match w with
       | Some v => b <- ne_None_truth v ;; if b then Ok v else get_w self
       | None => get_w self
       end ;;
  pred <- matmul_vec (X self) w ;;
  match pred, y self with
  | A1 p, A1 yv =>
      let p := sign_inplace p in
      d <- sub p yv ;;
      ww <- dot w w ;;
      Ok (sum (map (fun v => Qabs v / 2) d) + r self * ww)
  | _, _ => Err TypeError
  end.

(** [LinearModel._classify], line 220.  With [w = None], [np.dot]
    multiplies the floats of [x] by [None] and raises [TypeError]; with no
    float to multiply the product is an empty array, which is false. *)
Definition _classify (x : vec) (w : option vec) : result Z :=
  match w with
  | Some w => d <- dot x w ;; Ok (if Qle_bool 0 d then 1 else -1)%Z
  | None => match x with
            | [] => Ok (-1)%Z
            | _ => Err TypeError
            end
  end.

(** [LinearModel.classify], lines 246-251. *)
Definition classify (self : LinearModel) (x : vec) (w : option vec)
  : result Z :=
  x <- match feat_trans self with
       | Some f => try_except_e (f x)
       | None => Ok x
       end ;;
  _classify x w.

(** [LinearModel.classify_all], lines 275-285, on a batch of points. *)
Definition classify_all (self : LinearModel) (X : matrix) (w : option vec)
  : result vec :=
  w <- match w with
       | Some v => b <- ne_None_truth v ;; if b then Ok v else get_w self
       | None => get_w self
       end ;;
  X <- match feat_trans self with
       | Some f => try_except_e (rows' <- mapM f (rows X) ;;
                                 array_of_rows rows')
       | None => Ok (A2 X)
       end ;;
  pred <- matmul_vec X w ;;
  match pred with
  | A1 p => Ok (sign_inplace p)
  | _ => Err TypeError
  end.

(** The state of the training loop: the current weights [w], the pocket
    weights [w_] and the pocket error [E_]. *)
Record pocket : Type := mkPocket {
  cur : vec;
  best : vec;
  E_best : Q
}.

(** The [while True] search of lines 152-162.  [draws] is a finite prefix
    of the values [random.randint(0, len(self.X) - 1)] returns; [None]
    means the search has not ended within it. *)
Fixpoint search (self : LinearModel) (st : pocket) (draws : list nat)
  : option (result pocket * list nat) :=
  match draws with
  | [] => None
  | i :: draws' =>
      match (n <- len (X self) ;;
             if Nat.eqb n 0 then Err LibValueError
             else
               Xi <- getitem2 (X self) i ;;
               c <- _classify Xi (Some (cur st)) ;;
               yi <- getitem1 (y self) i ;;
               Ok (Xi, c, yi)) with
      | Err e => Some (Err e, draws')
      | Ok (Xi, c, yi) =>
          if negb (Qeq_bool (inject_Z c) yi) then
            Some (w' <- iadd (cur st) (map (Qmult yi) Xi) ;;
                  E_in <- _calc_E_in self (Some w') ;;
                  Ok (if Qltb E_in (E_best st)
                      then mkPocket w' w' E_in
                      else mkPocket w' (best st) (E_best st)),
                  draws')
          else search self st draws'
      end
  end.

(** [for t in range(...)], lines 149-162. *)
Fixpoint loop (self : LinearModel) (n : nat) (st : pocket)
  (draws : list nat) : option (result vec) :=
  match n with
  | O => Some (Ok (best st))
  | S n' =>
      match search self st draws with
      | None => None
      | Some (Err e, _) => Some (Err e)
      | Some (Ok st', draws') => loop self n' st' draws'
      end
  end.

(** [LinearModel._train_model], lines 141-166.  The loop bound is the
    name [n_iter], which the function does not bind (the constructor keeps
    its argument in [self._n_iter]).  The [debug] calls only print. *)
Definition _train_model (self : LinearModel) (draws : list nat)
  : option (result vec) :=
  match (w_ <- _calc_w_lin self ;;
         E_ <- _calc_E_in self (Some w_) ;;
         w <- get_w self ;;
         n_iter <- unbound_name Z "n_iter" ;;
         Ok (mkPocket w w_ E_, n_iter)) with
  | Err e => Some (Err e)
  | Ok (st, n_iter) => loop self (Z.to_nat n_iter) st draws
  end.

(** [LinearModel.__init__], lines 120-129. *)
Definition init (X0 y0 : ndarray) (r0 : Q) (ft : option transform)
  (n_iter : Z) (debug : bool) (draws : list nat)
  : option (result LinearModel) :=
  match (b <- Base.init X0 y0 ft ;;
         Xa <- column_stack_ones_like (Base.X b) ;;
         Ok (mkLinear Xa (Base.y b) (Base.feat_trans b) r0 debug n_iter
                      None)) with
  | Err e => Some (Err e)
  | Ok self =>
      match _train_model self draws with
      | None => None
      | Some (Err e) => Some (Err e)
      | Some (Ok w_) =>
          Some (Ok (mkLinear (X self) (y self) (feat_trans self) (r self)
                             (_debug self) (_n_iter self) (Some w_)))
      end
  end.

End WithNumpy.

End Linear.

(** ** kNNModel *)

Module KNN.

Import Base.

Record kNNModel : Type := mkKNN {
  X : ndarray;
  y : ndarray;
  feat_trans : option transform;
  k : Z
}.

(** [kNNModel.__init__], lines 322-323: no feature transform is passed
    on. *)
Definition init (X0 y0 : ndarray) (k0 : Z) : result kNNModel :=
  b <- Base.init X0 y0 None ;;
  Ok (mkKNN (Base.X b) (Base.y b) (Base.feat_trans b) k0).

(** The vote of line 382 over the neighbours kept. *)
Definition vote (nearest : list (Q * Q)) : Z :=
  if Qle_bool 0 (sum (map snd nearest)) then 1%Z else (-1)%Z.

Section WithNumpy.

(** [np.linalg.norm] on a rank-1 array. *)
Variable norm : vec -> Q.

(** [kNNModel._euclidean_distance], line 342. *)
Definition _euclidean_distance (x1 x2 : vec) : result Q :=
  d <- sub x1 x2 ;; Ok (norm d).

(** The generator of lines 377-378, in training order. *)
Definition distance_pairs (self : kNNModel) (x : vec)
  : result (list (Q * Q)) :=
  n <- len (X self) ;;
  mapM (fun i =>
          Xi <- getitem2 (X self) i ;;
          d <- _euclidean_distance x Xi ;;
          yi <- getitem1 (y self) i ;;
          Ok (d, yi))
       (seq 0 n).

(** [kNNModel.classify], lines 367-382. *)
Definition classify (self : kNNModel) (x : vec) (k0 : option Z)
  : result Z :=
  let k0 := match k0 with Some k' => k' | None => k self end in
  x <- match feat_trans self with
       | Some f => try_except_e (f x)
       | None => Ok x
       end ;;
  pairs <- distance_pairs self x ;;
  let distances := sorted tuple_lt pairs in
  let nearest_neighbors := slice_to k0 distances in
  Ok (vote nearest_neighbors).

(** [kNNModel.classify_all], lines 402-405, on a batch of points. *)
Definition classify_all (self : kNNModel) (X0 : matrix) (k0 : option Z)
  : result (list Z) :=
  let k0 := match k0 with Some k' => k' | None => k self end in
  mapM (fun x => classify self x (Some k0)) (rows X0).

(** [kNNModel.classification_error], lines 427-431; [y0] is a rank-1
    array of labels. *)
Definition classification_error (self : kNNModel) (X0 : matrix) (y0 : vec)
  (k0 : option Z) : result npfloat :=
  let k0 := match k0 with Some k' => k' | None => k self end in
  predictions <- classify_all self X0 (Some k0) ;;
  d <- sub (map inject_Z predictions) y0 ;;
  Ok (true_divide (sum (map (fun v => Qabs v / 2) d)) (length y0)).

End WithNumpy.

End KNN.

(** ** RBFModel *)

Module RBF.

Import Base.

Record RBFModel : Type := mkRBF {
  X : ndarray;
  y : ndarray;
  Mu : list vec;
  feat_trans : option transform;
  kern : Q -> Q;
  r : Q;
  w : option vec            (* [None]: the attribute is not set *)
}.

(** [self.w] *)
Definition get_w (self : RBFModel) : result vec :=
  match w self with
  | Some v => Ok v
  | None => Err (AttributeError "w")
  end.

Section WithNumpy.

(** [np.linalg.norm] on a rank-1 array, [np.linalg.inv] ([None] when it
    raises [LinAlgError]) and [math.exp]. *)
Variable norm : vec -> Q.
Variable inv : list vec -> option (list vec).
Variable exp : Q -> Q.

(** [RBFModel._gaussian_kernel], line 531. *)
Definition _gaussian_kernel (z : Q) : Q :=
  exp ((- (1) / 2) * (z * z)).

(** [kern if kern != None else self._gaussian_kernel], line 486. *)
Definition kern_or_default (kern : option (Q -> Q)) : Q -> Q :=
  match kern with
  | Some f => f
  | None => _gaussian_kernel
  end.

(** [RBFModel._feat_trans], lines 524-527, as the bound method the
    constructor stores: it reads [Mu], [kern] and [r] of its model. *)
Definition _feat_trans (Mu : list vec) (kern : Q -> Q) (r : Q) (x : vec)
  : result vec :=
  z <- mapM (fun mu => d <- sub x mu ;; Ok (kern (norm d / r))) Mu ;;
  Ok (1 :: z).

(** [RBFModel._calc_w_lin], line 502.  For a rank-1 [X] the product
    [X.T @ X] is a scalar, which [np.linalg.inv] refuses. *)
Definition _calc_w_lin (self : RBFModel) : result vec :=
  match X self, y self with
  | A2 (Mat n rows), A1 yv =>
      let Xt := transpose n rows in
      match inv (matmul Xt n rows) with
      | Some Mi => Ok (matvec (matmul Mi (length rows) Xt) yv)
      | None => Err LinAlgError
      end
  | A1 v, _ => Err LinAlgError
  | _, _ => Err LibValueError
  end.

(** [RBFModel.__init__], lines 485-491. *)
Definition init (X0 y0 : ndarray) (Mu0 : list vec)
  (kern0 : option (Q -> Q)) (r0 : Q) : result RBFModel :=
  b <- Base.init X0 y0 None ;;
  let kern1 := kern_or_default kern0 in
  let ft := _feat_trans Mu0 kern1 r0 in
  pts <- iter_rows X0 ;;
  pts' <- mapM ft pts ;;
  X1 <- array_of_rows pts' ;;
  let self := mkRBF X1 (Base.y b) Mu0 (Some ft) kern1 r0 None in
  w1 <- _calc_w_lin self ;;
  Ok (mkRBF X1 (Base.y b) Mu0 (Some ft) kern1 r0 (Some w1)).

(** [RBFModel.classify_all], lines 552-561, on a batch of points. *)
Definition classify_all (self : RBFModel) (X0 : matrix) : result vec :=
  X1 <- match feat_trans self with
        | Some f => try_except_e (pts' <- mapM f (rows X0) ;;
                                  array_of_rows pts')
        | None => Ok (A2 X0)
        end ;;
  w1 <- get_w self ;;
  pred <- matmul_vec X1 w1 ;;
  match pred with
  | A1 p => Ok (sign_inplace p)
  | _ => Err TypeError
  end.

End WithNumpy.

End RBF.

(** ** Reference instances of the library functions

    Executable stand-ins, used to run the model on concrete inputs. *)

Module Ref.

(** The square root of a rational, rounded down on the numerator scale:
    exact on squares of rationals. *)
Definition Qsqrt (q : Q) : Q :=
  let q := Qred q in
  Qred (Z.sqrt (Qnum q * Zpos (Qden q)) # Qden q).

(** The Euclidean norm. *)
Definition norm (v : vec) : Q :=
  Qsqrt (sum (map (fun a => a * a) v)).

Definition drop_col (j : nat) (r : vec) : vec :=
  firstn j r ++ skipn (S j) r.

Definition drop_row (i : nat) (M : list vec) : list vec :=
  firstn i M ++ skipn (S i) M.

Definition alt (j : nat) : Q := if Nat.even j then 1 else - (1).

(** The determinant, expanded along the first row; [fuel] is the size. *)
Fixpoint det (fuel : nat) (M : list vec) : Q :=
  match fuel, M with
  | S fuel', r :: M' =>
      sum (map (fun j => alt j * nth j r 0 * det fuel' (map (drop_col j) M'))
               (seq 0 (length r)))
  | _, _ => 1
  end.

(** The inverse by cofactors; [None] on a matrix of determinant 0. *)
Definition inv (M : list vec) : option (list vec) :=
  let n := length M in
  let dt := det n M in
  if Qeq_bool dt 0 then None
  else Some (map (fun i =>
               map (fun j =>
                      Qred (alt (i + j)
                            * det (n - 1) (map (drop_col i) (drop_row j M))
                            / dt))
                   (seq 0 n))
             (seq 0 n)).

(** The exponential, by its Taylor polynomial of degree 8. *)
Definition exp (x : Q) : Q :=
  Qred (fold_right (fun k acc => 1 + x * acc / inject_Z (Z.of_nat k)) 1
                   (seq 1 8)).

End Ref.

(** ** The k-nearest-neighbours vote as the specification words it *)

Module SpecKNN.

(** Neighbours are ordered by distance alone. *)
Definition dist_lt (p q : Q * Q) : bool := Qltb (fst p) (fst q).

Section WithNumpy.

Variable norm : vec -> Q.

(** The (distance to [x], label) pairs of the training points [pts]
    labelled [labels], in training order. *)
Definition training_pairs (pts : list vec) (labels : vec) (x : vec)
  : list (Q * Q) :=
  map (fun i => (norm (map2 Qminus x (nth i pts [])), nth i labels 0))
      (seq 0 (length pts)).

(** "Sort by distance ascending, ties broken by original training-order
    index; take the k nearest; predict +1 if the sum of their labels is
    >= 0, else -1": a stable sort on the distance keeps tied points in
    training order. *)
Definition classify (self : KNN.kNNModel) (x : vec) (k : Z) : result Z :=
  x <- match KNN.feat_trans self with
       | Some f => try_except_e (f x)
       | None => Ok x
       end ;;
  pairs <- KNN.distance_pairs norm self x ;;
  Ok (KNN.vote (slice_to k (sorted dist_lt pairs))).

End WithNumpy.

End SpecKNN.

(** ** Counting disagreements *)

Module Count.

(** The number of positions at which predictions and labels differ. *)
Definition disagreements (pred labels : vec) : nat :=
  length (filter (fun pl => negb (Qeq_bool (fst pl) (snd pl)))
                 (combine pred labels)).

(** A label of the alphabet {-1, +1}. *)
Definition is_label (v : Q) : Prop := v == 1 \/ v == - (1).

End Count.

(** ** Concrete inputs *)

Module Inputs.

(** Two training points at distance 1 of the query [0], labelled +1 and
    -1 in that order. *)
Definition tie_X : ndarray := A2 (Mat 1 [[1]; [- (1)]]).
Definition tie_y : ndarray := A1 [1; - (1)].
Definition tie_model : KNN.kNNModel := KNN.mkKNN tie_X tie_y None 1.
Definition tie_query : vec := [0].

(** A transform that raises on every point. *)
Definition failing_transform : Base.transform := fun _ => Err (Raised 0).

(** One training point [1] labelled +1. *)
Definition one_X : ndarray := A2 (Mat 1 [[1]]).
Definition one_y : ndarray := A1 [1].

(** Two training points [0] and [1], labelled +1 and -1. *)
Definition two_X : ndarray := A2 (Mat 1 [[0]; [1]]).
Definition two_y : ndarray := A1 [1; - (1)].

(** A linear model with weights [1, 1] and no feature transform. *)
Definition lin_model : Linear.LinearModel :=
  Linear.mkLinear (A2 (Mat 2 [[1; 1]])) one_y None 0 false 1 (Some [1; 1]).

End Inputs.

(** * Properties *)

(** ** The result monad *)

Lemma mapM_Ok_map {A B} (f : A -> result B) (g : A -> B) (l : list A) :
  (forall a, In a l -> f a = Ok (g a)) -> mapM f l = Ok (map g l).
Proof.
  induction l as [|a l IH]; intros H; simpl; [reflexivity|].
  rewrite (H a (or_introl eq_refl)). simpl.
  rewrite IH by (intros b Hb; apply H; right; exact Hb).
  reflexivity.
Qed.

Lemma mapM_fails {A B} (f : A -> result B) (l : list A) (a : A) (c : exn) :
  In a l -> f a = Err c -> exists e, mapM f l = Err e.
Proof.
  induction l as [|b l IH]; intros Hin Hf; [destruct Hin|].
  simpl. destruct Hin as [->|Hin].
  - rewrite Hf. simpl. eauto.
  - destruct (f b) as [vb|eb]; simpl; [|eauto].
    destruct (IH Hin Hf) as [e ->]. simpl. eauto.
Qed.

Lemma mapM_length {A B} (f : A -> result B) (l : list A) (l' : list B) :
  mapM f l = Ok l' -> length l' = length l.
Proof.
  revert l'. induction l as [|a l IH]; intros l' H; simpl in H.
  - inversion H. reflexivity.
  - destruct (f a) as [b|e]; simpl in H; [|discriminate].
    destruct (mapM f l) as [bs|e]; simpl in H; [|discriminate].
    inversion H. simpl. f_equal. apply IH. reflexivity.
Qed.

(** ** BaseModel *)

Lemma Base_init_Ok_inv X y ft b :
  Base.init X y ft = Ok b ->
  exists m yv, X = A2 m /\ y = A1 yv /\ length (rows m) = length yv
               /\ Base.y b = A1 yv /\ Base.feat_trans b = ft
               /\ (ft = None -> Base.X b = X).
Proof.
  unfold Base.init.
  destruct X as [q|v|m|k]; simpl; try discriminate.
  destruct y as [q|yv|my|k]; simpl; try discriminate.
  destruct (Nat.eqb (length (rows m)) (length yv)) eqn:E; simpl;
    [|discriminate].
  apply Nat.eqb_eq in E. intros H. exists m, yv.
  destruct ft as [f|]; simpl in H.
  - destruct (try_except_e _) as [X'|e]; simpl in H; [|discriminate].
    inversion H; subst; simpl. repeat split; auto. discriminate.
  - inversion H; subst; simpl. repeat split; auto.
Qed.

Lemma Base_init_valid m yv :
  length (rows m) = length yv ->
  Base.init (A2 m) (A1 yv) None = Ok (Base.mkBase (A2 m) (A1 yv) None).
Proof.
  intros E. unfold Base.init. simpl.
  apply Nat.eqb_eq in E. rewrite E. reflexivity.
Qed.

(** C1.  The shape checks of [BaseModel.__init__] raise one of their three
    [ValueError]s exactly when [X] is not rank-2, or [y] is not rank-1, or
    [len(X)] differs from [len(y)]; with a rank-2 [X], a rank-1 [y] and
    equal lengths, construction succeeds and stores [X] and [y]. *)
Theorem BaseModel_shape_validation (X y : ndarray)
  (ft : option Base.transform) :
  ((exists e, Base.init X y ft = Err e /\ is_ShapeError e = true)
   <-> (ndim X <> 2%nat \/ ndim y <> 1%nat \/ len X <> len y))
  /\ (ndim X = 2%nat -> ndim y = 1%nat -> len X = len y ->
      Base.init X y None = Ok (Base.mkBase X y None)).
Proof.
  split.
  - unfold Base.init.
    destruct X as [q|v|m|k]; simpl;
      try (split; [intros _; left; discriminate
                  | intros _; eexists; split; reflexivity]).
    destruct y as [q|yv|my|k]; simpl;
      try (split; [intros _; right; left; discriminate
                  | intros _; eexists; split; reflexivity]).
    destruct (Nat.eqb (length (rows m)) (length yv)) eqn:E; simpl.
    + apply Nat.eqb_eq in E. split.
      * intros [e [H He]].
        destruct ft as [f|]; simpl in H.
        -- destruct (try_except_e _) as [X'|e'] eqn:T; simpl in H;
             [discriminate|].
           unfold try_except_e in T.
           destruct (_ <- _ ;; _) in T; inversion T; subst.
           inversion H; subst. discriminate.
        -- discriminate.
      * intros [H|[H|H]]; try (exfalso; apply H; reflexivity).
        exfalso. apply H. rewrite E. reflexivity.
    + apply Nat.eqb_neq in E. split.
      * intros _. right; right. intros H. inversion H. contradiction.
      * intros _. eexists; split; reflexivity.
  - intros HX Hy Hl.
    destruct X as [q|v|m|k]; simpl in HX; try discriminate.
    destruct y as [q|yv|my|k]; simpl in Hy; try discriminate.
    apply Base_init_valid. simpl in Hl. inversion Hl. reflexivity.
Qed.

Lemma BaseModel_shape_validation_witness :
  Base.init Inputs.two_X Inputs.two_y None
  = Ok (Base.mkBase Inputs.two_X Inputs.two_y None).
Proof.
  apply (BaseModel_shape_validation Inputs.two_X Inputs.two_y None);
    reflexivity.
Defined.

(** C6.  A feature transform that raises does not make the operation fail
    with the wrapping [ValueError]: at construction, in
    [LinearModel.classify] and in [RBFModel.classify_all] the handler
    clause [except e] raises [NameError] on the unbound name [e], which is
    not a [TransformError] and carries no cause. *)
Theorem transform_failure_raises_NameError (f : Base.transform) (x : vec)
  (cause : exn) (Hf : f x = Err cause) :
  (forall m yv, length (rows m) = length yv -> In x (rows m) ->
     Base.init (A2 m) (A1 yv) (Some f) = Err (NameError "e"))
  /\ (forall self w, Linear.feat_trans self = Some f ->
        Linear.classify self x w = Err (NameError "e"))
  /\ (forall self X0, RBF.feat_trans self = Some f -> In x (rows X0) ->
        RBF.classify_all self X0 = Err (NameError "e"))
  /\ is_TransformError (NameError "e") = false.
Proof.
  repeat split.
  - intros m yv E Hin. unfold Base.init. simpl.
    apply Nat.eqb_eq in E. rewrite E. simpl.
    destruct (mapM_fails f (rows m) x Hin Hf) as [e ->]. reflexivity.
  - intros self w Hft. unfold Linear.classify. rewrite Hft, Hf. reflexivity.
  - intros self X0 Hft Hin. unfold RBF.classify_all. rewrite Hft.
    destruct (mapM_fails f (rows X0) x Hin Hf) as [e ->]. reflexivity.
Qed.

Lemma transform_failure_raises_NameError_witness :
  Base.init Inputs.two_X Inputs.two_y (Some Inputs.failing_transform)
  = Err (NameError "e").
Proof.
  refine (proj1 (transform_failure_raises_NameError
                   Inputs.failing_transform [0] (cause := Raised 0) _)
                (Mat 1 [[0]; [1]]) [1; - (1)] _ _).
  - reflexivity.
  - reflexivity.
  - simpl. left. reflexivity.
Defined.

(** ** LinearModel *)

Lemma sign_inplace_map (p : vec) :
  sign_inplace p = map (fun v => if Qle_bool 0 v then 1 else - (1)) p.
Proof.
  unfold sign_inplace, set_neg_to_minus_one, set_nonneg_to_one.
  rewrite map_map. apply map_ext. intros v. unfold Qltb.
  destruct (Qle_bool 0 v) eqn:E.
  - reflexivity.
  - rewrite E. reflexivity.
Qed.

Lemma Qltb_lt (a b : Q) : Qltb a b = true <-> a < b.
Proof.
  unfold Qltb. rewrite negb_true_iff. split.
  - intros H. apply Qnot_le_lt. intros Hle.
    apply Qle_bool_iff in Hle. congruence.
  - intros H. destruct (Qle_bool b a) eqn:E; [|reflexivity].
    apply Qle_bool_iff in E. exfalso. exact (Qlt_not_le _ _ H E).
Qed.

(** With an explicit weight vector of the length of [x], [_classify] is
    the sign rule with ties to +1. *)
Lemma Linear_classify_explicit_w (x w : vec) :
  length x = length w ->
  Linear._classify x (Some w)
  = Ok (if Qle_bool 0 (sum (map2 Qmult x w)) then 1 else -1)%Z.
Proof.
  intros E. unfold Linear._classify, dot.
  apply Nat.eqb_eq in E. rewrite E. reflexivity.
Qed.

(** [classify] hands [x] to [_classify] as it is: no bias entry is
    prepended, and a weight vector one longer than the point is refused by
    [np.dot]. *)
Lemma Linear_classify_no_bias_entry self x w :
  Linear.feat_trans self = None ->
  length w = S (length x) ->
  Linear.classify self x (Some w) = Err LibValueError.
Proof.
  intros Hft Hlen. unfold Linear.classify. rewrite Hft. cbn [bind].
  unfold Linear._classify, dot. rewrite Hlen.
  replace (Nat.eqb (length x) (S (length x))) with false; [reflexivity|].
  symmetry. apply Nat.eqb_neq. lia.
Qed.

(** The pocket error never grows over one search of the training loop. *)
Lemma search_pocket_error_nonincreasing self st draws st' draws' :
  Linear.search self st draws = Some (Ok st', draws') ->
  Linear.E_best st' <= Linear.E_best st.
Proof.
  revert st' draws'. induction draws as [|i draws IH]; intros st' draws' H;
    simpl in H; [discriminate|].
  destruct (_ <- len (Linear.X self) ;; _) as [[[Xi c] yi]|e];
    [|inversion H].
  destruct (negb (Qeq_bool (inject_Z c) yi)).
  - destruct (iadd _ _) as [w'|e]; simpl in H; [|inversion H].
    destruct (Linear._calc_E_in self (Some w')) as [E|e]; simpl in H;
      [|inversion H].
    destruct (Qltb E (Linear.E_best st)) eqn:L; inversion H; subst; simpl.
    + apply Qlt_le_weak. apply Qltb_lt. exact L.
    + apply Qle_refl.
  - eapply IH. exact H.
Qed.

(** C2.  [LinearModel.__init__] raises on every input: training reads
    [self.w] before the constructor has assigned it (and then the unbound
    name [n_iter]), so no iteration of the pocket loop runs and no weight
    vector is ever stored. *)
Theorem LinearModel_init_always_raises
  (inv : list vec -> option (list vec)) (X y : ndarray) (r : Q)
  (ft : option Base.transform) (n_iter : Z) (debug : bool)
  (draws : list nat) :
  exists e, Linear.init inv X y r ft n_iter debug draws = Some (Err e).
Proof.
  unfold Linear.init.
  destruct (Base.init X y ft) as [b|e]; simpl; [|eauto].
  destruct (Linear.column_stack_ones_like (Base.X b)) as [Xa|e]; simpl;
    [|eauto].
  unfold Linear._train_model.
  destruct (Linear._calc_w_lin _ _) as [w_|e]; simpl; [|eauto].
  destruct (Linear._calc_E_in _ _) as [E_|e]; simpl; eauto.
Qed.

(** The exception on the one-row training set [[1]], [1] with [r = 1]:
    the seed weights have two entries and [w != None] has no truth value. *)
Example LinearModel_init_one_point :
  Linear.init Ref.inv Inputs.one_X Inputs.one_y 1 None 1 false [0%nat]
  = Some (Err LibValueError).
Proof. vm_compute. reflexivity. Qed.

(** On a training point with no feature the seed has one entry, its error
    is computed, and reading [self.w] raises. *)
Example LinearModel_init_no_feature :
  Linear.init Ref.inv (A2 (Mat 0 [[]])) Inputs.one_y 0 None 1 false [0%nat]
  = Some (Err (AttributeError "w")).
Proof. vm_compute. reflexivity. Qed.

(** C3.  With a number of training rows other than one, construction
    raises inside [np.column_stack]: the column stacked beside [X] is
    [np.ones_like] of the row count, a single 1, not a column of ones. *)
Theorem LinearModel_bias_column_needs_single_row
  (inv : list vec -> option (list vec)) (m : matrix) (yv : vec) (r : Q)
  (n_iter : Z) (debug : bool) (draws : list nat) :
  length (rows m) = length yv ->
  length (rows m) <> 1%nat ->
  Linear.init inv (A2 m) (A1 yv) r None n_iter debug draws
  = Some (Err LibValueError).
Proof.
  intros E H1. unfold Linear.init.
  rewrite (Base_init_valid m yv E). simpl.
  destruct m as [d [|r1 [|r2 rs]]]; simpl in *;
    reflexivity || (exfalso; apply H1; reflexivity).
Qed.

Lemma LinearModel_bias_column_needs_single_row_witness :
  Linear.init Ref.inv Inputs.two_X Inputs.two_y 1 None 1 false [0%nat]
  = Some (Err LibValueError).
Proof.
  apply (LinearModel_bias_column_needs_single_row
           Ref.inv (Mat 1 [[0]; [1]]) [1; - (1)]).
  - reflexivity.
  - simpl. lia.
Defined.

(** C4.  [LinearModel.classify] called without [w] does not fall back on
    the model's weight vector: [None] reaches [np.dot] and the call raises
    [TypeError], whatever the sign of the model's dot product. *)
Theorem LinearModel_classify_without_w_raises
  (self : Linear.LinearModel) (x : vec) :
  Linear.feat_trans self = None ->
  x <> [] ->
  Linear.classify self x None = Err TypeError.
Proof.
  intros Hft Hx. unfold Linear.classify. rewrite Hft. simpl.
  destruct x; [contradiction|reflexivity].
Qed.

Lemma LinearModel_classify_without_w_raises_witness :
  Linear.classify Inputs.lin_model [1; 1] None = Err TypeError
  /\ Linear.classify Inputs.lin_model [1; 1] (Linear.w Inputs.lin_model)
     = Ok 1%Z.
Proof.
  split.
  - apply (LinearModel_classify_without_w_raises Inputs.lin_model).
    + reflexivity.
    + discriminate.
  - reflexivity.
Defined.

(** [LinearModel.classify_all] with an explicit weight array of two or
    more entries raises on the truth value of [w != None]. *)
Lemma LinearModel_classify_all_explicit_w_raises self X0 a b w :
  Linear.classify_all self X0 (Some (a :: b :: w)) = Err LibValueError.
Proof. reflexivity. Qed.

(** Without [w], [LinearModel.classify_all] uses the model's weights and
    follows the sign rule, ties to +1. *)
Lemma LinearModel_classify_all_default_w self X0 wv :
  Linear.feat_trans self = None ->
  Linear.w self = Some wv ->
  ncols X0 = length wv ->
  Linear.classify_all self X0 None
  = Ok (map (fun p => if Qle_bool 0 (sum (map2 Qmult p wv)) then 1
                      else - (1)) (rows X0)).
Proof.
  intros Hft Hw Hc. unfold Linear.classify_all, Linear.get_w.
  rewrite Hw, Hft. cbn [bind]. unfold matmul_vec.
  rewrite Hc, Nat.eqb_refl. cbn [bind].
  rewrite sign_inplace_map, map_map. reflexivity.
Qed.

(** [RBFModel.classify_all] follows the sign rule on the transformed
    points, ties to +1. *)
Lemma RBF_classify_all_sign self X0 f pts wv :
  RBF.feat_trans self = Some f ->
  mapM f (rows X0) = Ok pts ->
  pts <> [] ->
  Forall (fun p => length p = length wv) pts ->
  RBF.w self = Some wv ->
  RBF.classify_all self X0
  = Ok (map (fun p => if Qle_bool 0 (sum (map2 Qmult p wv)) then 1
                      else - (1)) pts).
Proof.
  intros Hft Hm Hne Hlen Hw. unfold RBF.classify_all, RBF.get_w.
  rewrite Hft, Hm, Hw. simpl.
  destruct pts as [|p ps]; [contradiction|]. unfold array_of_rows.
  assert (Hall : forallb (fun r' => Nat.eqb (length r') (length p))
                         (p :: ps) = true).
  { apply forallb_forall. intros q Hq. apply Nat.eqb_eq.
    rewrite Forall_forall in Hlen.
    rewrite (Hlen q Hq), (Hlen p (or_introl eq_refl)). reflexivity. }
  rewrite Hall. simpl try_except_e. cbv beta iota. simpl bind.
  unfold matmul_vec. simpl ncols. simpl rows.
  inversion Hlen as [|? ? Hp _]; subst.
  rewrite Hp, Nat.eqb_refl. simpl bind.
  rewrite sign_inplace_map. simpl map. rewrite map_map. reflexivity.
Qed.

(** C9.  When the current weights classify every training point as
    labelled, the [while True] search finds no misclassified point on any
    sequence of draws: it never ends, and neither does an iteration of the
    training loop. *)
Theorem pocket_search_never_ends_when_all_classified
  (self : Linear.LinearModel) (st : Linear.pocket) (n : nat)
  (draws : list nat) :
  len (Linear.X self) = Ok n ->
  (0 < n)%nat ->
  (forall i, (i < n)%nat ->
     exists Xi yi c,
       getitem2 (Linear.X self) i = Ok Xi
       /\ getitem1 (Linear.y self) i = Ok yi
       /\ Linear._classify Xi (Some (Linear.cur st)) = Ok c
       /\ inject_Z c == yi) ->
  Forall (fun i => (i < n)%nat) draws ->
  Linear.search self st draws = None
  /\ forall t, Linear.loop self (S t) st draws = None.
Proof.
  intros Hn Hpos Hfit Hdraws.
  assert (Hs : Linear.search self st draws = None).
  { induction Hdraws as [|i draws Hi _ IH]; cbn [Linear.search];
      [reflexivity|].
    rewrite Hn. cbn [bind].
    destruct (Hfit i Hi) as [Xi [yi [c [HX [Hy [Hc Heq]]]]]].
    destruct n as [|n']; [lia|]. cbn [Nat.eqb].
    rewrite HX. cbn [bind]. rewrite Hc. cbn [bind]. rewrite Hy. cbn [bind].
    apply Qeq_bool_iff in Heq. rewrite Heq. cbn [negb]. exact IH. }
  split; [exact Hs|]. intros t. simpl. rewrite Hs. reflexivity.
Qed.

Lemma pocket_search_never_ends_when_all_classified_witness :
  Linear.loop Inputs.lin_model 1 (Linear.mkPocket [1; 1] [1; 1] 0)
              [0; 0; 0; 0]%nat
  = None.
Proof.
  refine (proj2 (pocket_search_never_ends_when_all_classified
                   Inputs.lin_model (Linear.mkPocket [1; 1] [1; 1] 0)
                   (n := 1) (draws := [0; 0; 0; 0]%nat) _ _ _ _) 0%nat).
  - reflexivity.
  - lia.
  - intros i Hi. assert (i = 0%nat) as -> by lia.
    exists [1; 1], 1, 1%Z. repeat split; reflexivity.
  - repeat constructor.
Defined.

(** ** RBFModel *)

Lemma sub_same_length (a b : vec) :
  length b = length a -> sub a b = Ok (map2 Qminus a b).
Proof.
  intros E. unfold sub. rewrite E, Nat.eqb_refl. reflexivity.
Qed.

Lemma RBF_feat_trans_Ok (norm : vec -> Q) Mu kern r x :
  Forall (fun mu => length mu = length x) Mu ->
  RBF._feat_trans norm Mu kern r x
  = Ok (1 :: map (fun mu => kern (norm (map2 Qminus x mu) / r)) Mu).
Proof.
  intros H. unfold RBF._feat_trans.
  rewrite (mapM_Ok_map _ (fun mu => kern (norm (map2 Qminus x mu) / r))).
  - reflexivity.
  - intros mu Hmu. rewrite Forall_forall in H.
    rewrite (sub_same_length x mu (H mu Hmu)). reflexivity.
Qed.

Lemma RBF_init_Ok_inv norm inv exp X y Mu kern0 r self :
  RBF.init norm inv exp X y Mu kern0 r = Ok self ->
  RBF.kern self = RBF.kern_or_default exp kern0
  /\ RBF.feat_trans self
     = Some (RBF._feat_trans norm Mu (RBF.kern_or_default exp kern0) r)
  /\ RBF.Mu self = Mu /\ RBF.r self = r
  /\ exists wv, RBF.w self = Some wv.
Proof.
  unfold RBF.init. intros H.
  destruct (Base.init X y None) as [b|e]; simpl in H; [|discriminate].
  destruct (iter_rows X) as [pts|e]; simpl in H; [|discriminate].
  destruct (mapM _ pts) as [pts'|e]; simpl in H; [|discriminate].
  destruct (array_of_rows pts') as [X1|e]; simpl in H; [|discriminate].
  destruct (RBF._calc_w_lin _ _) as [w1|e]; simpl in H; [|discriminate].
  inversion H; subst; simpl. repeat split; eauto.
Qed.

(** C8.  On a point of the dimension of the centers the RBF feature
    transform returns [1] followed by [kern(norm(x - Mu[i]) / r)] for each
    center in turn, a vector of length [len(Mu) + 1]; a model built without
    a kernel uses [exp((-1/2) * z**2)], and its transform is this one. *)
Theorem RBF_feature_transform (norm : vec -> Q)
  (inv : list vec -> option (list vec)) (exp : Q -> Q) :
  (forall Mu kern r x,
     Forall (fun mu => length mu = length x) Mu ->
     exists z,
       RBF._feat_trans norm Mu kern r x = Ok z
       /\ z = 1 :: map (fun mu => kern (norm (map2 Qminus x mu) / r)) Mu
       /\ length z = S (length Mu)
       /\ nth_error z 0 = Some 1)
  /\ (forall X y Mu r self,
        RBF.init norm inv exp X y Mu None r = Ok self ->
        (forall z, RBF.kern self z = exp ((- (1) / 2) * (z * z)))
        /\ RBF.feat_trans self
           = Some (RBF._feat_trans norm Mu (RBF.kern self) r)).
Proof.
  split.
  - intros Mu kern r x H. eexists. split; [apply RBF_feat_trans_Ok, H|].
    split; [reflexivity|]. split; [|reflexivity].
    simpl. rewrite length_map. reflexivity.
  - intros X y Mu r self H.
    destruct (RBF_init_Ok_inv _ _ _ _ _ _ _ _ H) as [Hk [Hft _]].
    rewrite Hk. split; [reflexivity|exact Hft].
Qed.

Lemma RBF_feature_transform_witness :
  (exists z,
     RBF._feat_trans Ref.norm [[0]; [4]] (fun q => q) 2 [1] = Ok z
     /\ z = 1 :: map (fun mu => Ref.norm (map2 Qminus [1] mu) / 2)
                     [[0]; [4]]
     /\ length z = 3%nat
     /\ nth_error z 0 = Some 1)
  /\ exists self,
       RBF.init Ref.norm Ref.inv Ref.exp Inputs.two_X Inputs.two_y [[0]]
                None 2
       = Ok self
       /\ forall z, RBF.kern self z = Ref.exp ((- (1) / 2) * (z * z)).
Proof.
  split.
  { apply (proj1 (RBF_feature_transform Ref.norm Ref.inv Ref.exp)
                 [[0]; [4]] (fun q => q) 2 [1]).
    repeat constructor. }
  destruct (RBF.init Ref.norm Ref.inv Ref.exp Inputs.two_X Inputs.two_y
              [[0]] None 2) as [self|e] eqn:E.
  - exists self. split; [reflexivity|].
    exact (proj1 (proj2 (RBF_feature_transform Ref.norm Ref.inv Ref.exp)
                        _ _ _ _ _ E)).
  - assert (H : is_Ok (RBF.init Ref.norm Ref.inv Ref.exp Inputs.two_X
                         Inputs.two_y [[0]] None 2) = true)
      by (vm_compute; reflexivity).
    rewrite E in H. discriminate H.
Defined.

(** ** The closed-form solve *)

(** C7.  When [np.linalg.inv] refuses the system matrix, construction
    raises [LinAlgError]: for [LinearModel] the matrix is [X.T @ X + r * I]
    of the bias-augmented [X], for [RBFModel] the Gram matrix [X.T @ X] of
    the transformed training points. *)
Theorem singular_system_raises_LinAlgError (norm : vec -> Q)
  (inv : list vec -> option (list vec)) (exp : Q -> Q) :
  (forall X y r ft n_iter debug draws b n Xa,
     Base.init X y ft = Ok b ->
     Linear.column_stack_ones_like (Base.X b) = Ok (A2 (Mat n Xa)) ->
     inv (mat_add (matmul (transpose n Xa) n Xa) (mat_scale r (eye n)))
     = None ->
     Linear.init inv X y r ft n_iter debug draws = Some (Err LinAlgError))
  /\ (forall m yv Mu kern0 r,
        length (rows m) = length yv ->
        rows m <> [] ->
        Forall (fun x => Forall (fun mu => length mu = length x) Mu)
               (rows m) ->
        let kern := RBF.kern_or_default exp kern0 in
        let Xt := map (fun x =>
                         1 :: map (fun mu =>
                                     kern (norm (map2 Qminus x mu) / r)) Mu)
                      (rows m) in
        let n := S (length Mu) in
        inv (matmul (transpose n Xt) n Xt) = None ->
        RBF.init norm inv exp (A2 m) (A1 yv) Mu kern0 r = Err LinAlgError)
  /\ is_SingularMatrixError LinAlgError = true.
Proof.
  split; [|split; [|reflexivity]].
  - intros X y r ft n_iter debug draws b n Xa Hb Hcs Hinv.
    destruct (Base_init_Ok_inv _ _ _ Hb) as [m [yv [_ [_ [_ [Hy _]]]]]].
    unfold Linear.init. rewrite Hb. cbn [bind]. rewrite Hcs. cbn [bind].
    unfold Linear._train_model, Linear._calc_w_lin.
    cbn [Linear.X Linear.y Linear.r]. rewrite Hy, Hinv. reflexivity.
  - intros m yv Mu kern0 r E Hne Hdim kern Xt n Hinv.
    unfold RBF.init. rewrite (Base_init_valid m yv E).
    cbn [bind iter_rows].
    rewrite (mapM_Ok_map _ (fun x =>
               1 :: map (fun mu => kern (norm (map2 Qminus x mu) / r)) Mu)).
    2:{ intros x Hx. rewrite Forall_forall in Hdim.
        apply RBF_feat_trans_Ok. exact (Hdim x Hx). }
    fold Xt. cbn [bind].
    assert (HA : array_of_rows Xt = Ok (A2 (Mat n Xt))).
    { unfold Xt. destruct (rows m) as [|x xs]; [contradiction|].
      cbn [map array_of_rows].
      match goal with
      | |- (if ?c then _ else _) = _ => assert (Hc : c = true)
      end.
      { apply forallb_forall. intros q Hq. apply Nat.eqb_eq.
        destruct Hq as [<-|Hq]; [reflexivity|].
        apply in_map_iff in Hq. destruct Hq as [x' [<- _]].
        simpl. rewrite !length_map. reflexivity. }
      rewrite Hc. unfold n. simpl. rewrite length_map. reflexivity. }
    rewrite HA. cbn [bind]. unfold RBF._calc_w_lin.
    cbn [RBF.X RBF.y Base.y]. rewrite Hinv. reflexivity.
Qed.

Lemma singular_system_raises_LinAlgError_witness :
  Linear.init Ref.inv Inputs.one_X Inputs.one_y 0 None 1 false [0%nat]
  = Some (Err LinAlgError)
  /\ RBF.init Ref.norm Ref.inv Ref.exp Inputs.one_X Inputs.one_y [[0]]
              None 2
     = Err LinAlgError.
Proof.
  pose proof (singular_system_raises_LinAlgError Ref.norm Ref.inv Ref.exp)
    as [HL [HR _]].
  split.
  - apply (HL Inputs.one_X Inputs.one_y 0 None 1%Z false [0%nat]
              (Base.mkBase Inputs.one_X Inputs.one_y None) 2%nat [[1; 1]]).
    + reflexivity.
    + reflexivity.
    + vm_compute. reflexivity.
  - apply (HR (Mat 1 [[1]]) [1] [[0]] None 2).
    + reflexivity.
    + discriminate.
    + repeat constructor.
    + vm_compute. reflexivity.
Defined.

(** ** Sorting pairs *)

Section Sorting.

Context {A : Type} (lt : A -> A -> bool).

Lemma insert_perm (a : A) (l : list A) :
  Permutation (a :: l) (insert lt a l).
Proof.
  induction l as [|b l IH]; simpl; [apply Permutation_refl|].
  destruct (lt b a).
  - eapply perm_trans; [apply perm_swap|]. apply perm_skip, IH.
  - apply Permutation_refl.
Qed.

Lemma sorted_perm (l : list A) : Permutation l (sorted lt l).
Proof.
  induction l as [|a l IH]; simpl; [constructor|].
  eapply perm_trans; [apply perm_skip, IH|apply insert_perm].
Qed.

Lemma sorted_length (l : list A) : length (sorted lt l) = length l.
Proof. symmetry. apply Permutation_length, sorted_perm. Qed.

End Sorting.

Lemma tuple_lt_true (p q : Q * Q) :
  tuple_lt p q = true -> tuple_le p q.
Proof.
  unfold tuple_lt, tuple_le.
  destruct (Qeq_bool (fst p) (fst q)) eqn:E1.
  - apply Qeq_bool_iff in E1.
    destruct (Qeq_bool (snd p) (snd q)); [discriminate|].
    intros H. apply Qltb_lt in H. right. split; [exact E1|lra].
  - intros H. apply Qltb_lt in H. left. exact H.
Qed.

Lemma tuple_lt_false (p q : Q * Q) :
  tuple_lt p q = false -> tuple_le q p.
Proof.
  unfold tuple_lt, tuple_le.
  destruct (Qeq_bool (fst p) (fst q)) eqn:E1.
  - apply Qeq_bool_iff in E1.
    destruct (Qeq_bool (snd p) (snd q)) eqn:E2.
    + apply Qeq_bool_iff in E2. intros _. right. split; lra.
    + intros H. right. split; [lra|].
      destruct (Qlt_le_dec (snd p) (snd q)) as [Hlt|Hle]; [|exact Hle].
      apply Qltb_lt in Hlt. congruence.
  - apply Qeq_bool_neq in E1. intros H.
    destruct (Qlt_le_dec (fst p) (fst q)) as [Hlt|Hle].
    + apply Qltb_lt in Hlt. congruence.
    + left. lra.
Qed.

Lemma tuple_le_trans (p q s : Q * Q) :
  tuple_le p q -> tuple_le q s -> tuple_le p s.
Proof.
  unfold tuple_le. intros [H1|[H1 H1']] [H2|[H2 H2']].
  - left; lra.
  - left; lra.
  - left; lra.
  - right; split; lra.
Qed.

Lemma insert_sorted (a : Q * Q) (l : list (Q * Q)) :
  StronglySorted tuple_le l -> StronglySorted tuple_le (insert tuple_lt a l).
Proof.
  induction 1 as [|b l Hs IH Hb]; simpl.
  - repeat constructor.
  - destruct (tuple_lt b a) eqn:E.
    + constructor; [exact IH|].
      apply (Permutation_Forall (insert_perm tuple_lt a l)).
      constructor; [apply tuple_lt_true, E|exact Hb].
    + apply tuple_lt_false in E.
      constructor; [constructor; assumption|].
      constructor; [exact E|].
      eapply Forall_impl; [|exact Hb].
      intros c Hc. eapply tuple_le_trans; eassumption.
Qed.

Lemma sorted_sorted (l : list (Q * Q)) :
  StronglySorted tuple_le (sorted tuple_lt l).
Proof.
  induction l as [|a l IH]; simpl; [constructor|].
  apply insert_sorted, IH.
Qed.

Lemma sum_perm (l l' : vec) : Permutation l l' -> sum l == sum l'.
Proof.
  unfold sum. induction 1; simpl; lra.
Qed.

Lemma map_nth_seq {B} (d : B) (l : list B) :
  map (fun i => nth i l d) (seq 0 (length l)) = l.
Proof.
  induction l as [|a l IH]; simpl; [reflexivity|].
  f_equal. rewrite <- seq_shift, map_map. exact IH.
Qed.

Lemma slice_to_all {B} (k : Z) (l : list B) :
  (Z.of_nat (length l) <= k)%Z -> slice_to k l = l.
Proof.
  intros H. unfold slice_to.
  destruct (k <? 0)%Z eqn:E; [apply Z.ltb_lt in E; lia|].
  apply firstn_all2. lia.
Qed.

Lemma slice_to_nonneg {B} (k : Z) (l : list B) :
  (0 <= k)%Z -> slice_to k l = firstn (Z.to_nat k) l.
Proof.
  intros H. unfold slice_to.
  destruct (k <? 0)%Z eqn:E; [apply Z.ltb_lt in E; lia|reflexivity].
Qed.

(** Sorting on the distance alone leaves points at one distance in
    training order. *)
Lemma sorted_dist_lt_keeps_ties (d : Q) (l : list (Q * Q)) :
  Forall (fun p => fst p == d) l -> sorted SpecKNN.dist_lt l = l.
Proof.
  induction 1 as [|a l Ha Hl IH]; simpl; [reflexivity|].
  rewrite IH. destruct l as [|b l']; simpl; [reflexivity|].
  inversion Hl as [|? ? Hb _]; subst.
  replace (SpecKNN.dist_lt b a) with false; [reflexivity|].
  symmetry. unfold SpecKNN.dist_lt.
  destruct (Qltb (fst b) (fst a)) eqn:E; [|reflexivity].
  apply Qltb_lt in E. lra.
Qed.

(** ** kNNModel *)

Lemma KNN_init_Ok_inv m yv k0 self :
  KNN.init (A2 m) (A1 yv) k0 = Ok self ->
  length (rows m) = length yv
  /\ self = KNN.mkKNN (A2 m) (A1 yv) None k0.
Proof.
  unfold KNN.init, Base.init. simpl.
  destruct (Nat.eqb (length (rows m)) (length yv)) eqn:E; simpl;
    [|discriminate].
  apply Nat.eqb_eq in E. intros H. inversion H. split; [exact E|reflexivity].
Qed.

Lemma distance_pairs_Ok (norm : vec -> Q) m yv ft k0 x :
  length (rows m) = length yv ->
  Forall (fun p => length p = length x) (rows m) ->
  KNN.distance_pairs norm (KNN.mkKNN (A2 m) (A1 yv) ft k0) x
  = Ok (SpecKNN.training_pairs norm (rows m) yv x).
Proof.
  intros E Hdim. unfold KNN.distance_pairs, SpecKNN.training_pairs.
  cbn [KNN.X KNN.y len bind].
  apply mapM_Ok_map. intros i Hi. apply in_seq in Hi.
  assert (Hi' : (i < length (rows m))%nat) by lia.
  unfold getitem2, getitem1.
  rewrite (nth_error_nth' (rows m) [] Hi'). cbn [bind].
  unfold KNN._euclidean_distance.
  rewrite sub_same_length.
  2:{ rewrite Forall_forall in Hdim. apply Hdim, nth_In, Hi'. }
  cbn [bind].
  rewrite (nth_error_nth' yv 0) by lia. reflexivity.
Qed.

Lemma training_pairs_labels (norm : vec -> Q) pts labels x :
  length pts = length labels ->
  map snd (SpecKNN.training_pairs norm pts labels x) = labels.
Proof.
  intros E. unfold SpecKNN.training_pairs. rewrite map_map. simpl.
  rewrite E. apply map_nth_seq.
Qed.

Lemma KNN_classify_Ok (norm : vec -> Q) m yv k0 x k :
  length (rows m) = length yv ->
  Forall (fun p => length p = length x) (rows m) ->
  KNN.classify norm (KNN.mkKNN (A2 m) (A1 yv) None k0) x (Some k)
  = Ok (KNN.vote (slice_to k (sorted tuple_lt
                     (SpecKNN.training_pairs norm (rows m) yv x)))).
Proof.
  intros E Hdim. unfold KNN.classify. cbn [KNN.feat_trans bind].
  rewrite (distance_pairs_Ok norm m yv None k0 x E Hdim). reflexivity.
Qed.

(** C5 (as the code has it).  [kNNModel.classify] measures the distance
    from [x] to every training point, orders the (distance, label) pairs by
    ascending distance and, at equal distance, by ascending label, keeps
    the first [k] and answers +1 when their labels sum to 0 or more, -1
    otherwise. *)
Theorem kNN_classify_ties_by_label (norm : vec -> Q) (m : matrix)
  (yv : vec) (k0 : Z) (self : KNN.kNNModel) (x : vec) (k : Z) :
  KNN.init (A2 m) (A1 yv) k0 = Ok self ->
  Forall (fun p => length p = length x) (rows m) ->
  (1 <= k)%Z ->
  exists s,
    Permutation (SpecKNN.training_pairs norm (rows m) yv x) s
    /\ StronglySorted tuple_le s
    /\ KNN.classify norm self x (Some k)
       = Ok (if Qle_bool 0 (sum (map snd (firstn (Z.to_nat k) s)))
             then 1 else -1)%Z.
Proof.
  intros Hinit Hdim Hk.
  destruct (KNN_init_Ok_inv _ _ _ Hinit) as [E ->].
  exists (sorted tuple_lt (SpecKNN.training_pairs norm (rows m) yv x)).
  split; [apply sorted_perm|]. split; [apply sorted_sorted|].
  rewrite KNN_classify_Ok by assumption.
  rewrite slice_to_nonneg by lia. reflexivity.
Qed.

Lemma kNN_classify_ties_by_label_witness :
  exists s,
    Permutation [(1, 1); (1, - (1))] s
    /\ StronglySorted tuple_le s
    /\ KNN.classify Ref.norm Inputs.tie_model Inputs.tie_query (Some 1%Z)
       = Ok (if Qle_bool 0 (sum (map snd (firstn 1 s))) then 1 else -1)%Z.
Proof.
  apply (@kNN_classify_ties_by_label Ref.norm (Mat 1 [[1]; [- (1)]])
           [1; - (1)] 1 Inputs.tie_model [0] 1%Z).
  - reflexivity.
  - repeat constructor.
  - lia.
Defined.

(** C5 (as the spec has it) fails: with two training points at the same
    distance of the query, labelled +1 then -1, the code keeps the point
    labelled -1 where the order of the training set keeps the first. *)
Lemma kNN_ties_not_by_training_order :
  KNN.classify Ref.norm Inputs.tie_model Inputs.tie_query (Some 1%Z)
  = Ok (-1)%Z
  /\ SpecKNN.classify Ref.norm Inputs.tie_model Inputs.tie_query 1%Z
     = Ok 1%Z
  /\ KNN.classify Ref.norm Inputs.tie_model Inputs.tie_query (Some 1%Z)
     <> SpecKNN.classify Ref.norm Inputs.tie_model Inputs.tie_query 1%Z.
Proof.
  assert (Hc : KNN.classify Ref.norm Inputs.tie_model Inputs.tie_query
                 (Some 1%Z) = Ok (-1)%Z) by (vm_compute; reflexivity).
  assert (Hs : SpecKNN.classify Ref.norm Inputs.tie_model Inputs.tie_query
                 1%Z = Ok 1%Z) by (vm_compute; reflexivity).
  split; [exact Hc|]. split; [exact Hs|].
  rewrite Hc, Hs. discriminate.
Qed.

(** C10.  With [k] larger than the number [n] of training points,
    [kNNModel.classify] raises nothing and answers as with [k = n]: the
    slice keeps all [n] neighbours, and the answer is +1 exactly when the
    labels of the whole training set sum to 0 or more. *)
Theorem kNN_k_beyond_training_size (norm : vec -> Q) (m : matrix)
  (yv : vec) (k0 : Z) (self : KNN.kNNModel) (x : vec) (k : Z) :
  KNN.init (A2 m) (A1 yv) k0 = Ok self ->
  Forall (fun p => length p = length x) (rows m) ->
  (Z.of_nat (length (rows m)) < k)%Z ->
  KNN.classify norm self x (Some k)
  = KNN.classify norm self x (Some (Z.of_nat (length (rows m))))
  /\ KNN.classify norm self x (Some k)
     = Ok (if Qle_bool 0 (sum yv) then 1 else -1)%Z.
Proof.
  intros Hinit Hdim Hk.
  destruct (KNN_init_Ok_inv _ _ _ Hinit) as [E ->].
  rewrite !KNN_classify_Ok by assumption.
  set (ps := SpecKNN.training_pairs norm (rows m) yv x).
  assert (Hlen : length (sorted tuple_lt ps) = length (rows m)).
  { rewrite sorted_length. unfold ps, SpecKNN.training_pairs.
    rewrite length_map, length_seq. reflexivity. }
  rewrite !slice_to_all by lia.
  split; [reflexivity|]. unfold KNN.vote.
  assert (Hsum : sum (map snd (sorted tuple_lt ps)) == sum yv).
  { rewrite <- (training_pairs_labels norm (rows m) yv x E).
    apply sum_perm, Permutation_map, Permutation_sym, sorted_perm. }
  rewrite Hsum. reflexivity.
Qed.

Lemma kNN_k_beyond_training_size_witness :
  KNN.classify Ref.norm Inputs.tie_model Inputs.tie_query (Some 5%Z)
  = KNN.classify Ref.norm Inputs.tie_model Inputs.tie_query (Some 2%Z)
  /\ KNN.classify Ref.norm Inputs.tie_model Inputs.tie_query (Some 5%Z)
     = Ok 1%Z.
Proof.
  apply (@kNN_k_beyond_training_size Ref.norm (Mat 1 [[1]; [- (1)]])
           [1; - (1)] 1 Inputs.tie_model [0] 5%Z).
  - reflexivity.
  - repeat constructor.
  - simpl. lia.
Defined.

(** * Further properties of the code *)

Unset Implicit Arguments.

(** ** BaseModel with a feature transform *)

Lemma array_of_rows_uniform (d : nat) (l : list vec) :
  l <> [] -> Forall (fun p => length p = d) l ->
  array_of_rows l = Ok (A2 (Mat d l)).
Proof.
  intros Hne Hl. destruct l as [|p ps]; [contradiction|].
  unfold array_of_rows. rewrite Forall_forall in Hl.
  assert (Hall : forallb (fun r' => Nat.eqb (length r') (length p))
                         (p :: ps) = true).
  { apply forallb_forall. intros q Hq. apply Nat.eqb_eq.
    rewrite (Hl q Hq), (Hl p (or_introl eq_refl)). reflexivity. }
  rewrite Hall, (Hl p (or_introl eq_refl)). reflexivity.
Qed.

Lemma array_of_rows_ragged (l : list vec) (p q : vec) :
  In p l -> In q l -> length p <> length q ->
  array_of_rows l = Err LibValueError.
Proof.
  intros Hp Hq Hne. destruct l as [|r rs]; [destruct Hp|].
  unfold array_of_rows.
  destruct (forallb (fun r' => Nat.eqb (length r') (length r)) (r :: rs))
    eqn:E; [|reflexivity].
  rewrite forallb_forall in E.
  apply E in Hp. apply E in Hq.
  apply Nat.eqb_eq in Hp. apply Nat.eqb_eq in Hq. congruence.
Qed.

(** With a transform that succeeds on every training point and returns
    points of one length, [BaseModel.__init__] stores the transformed
    points in training order together with [y] and the transform; on a
    training set with no point it stores an empty array of rank 1, not 2. *)
Theorem BaseModel_init_with_transform (f : Base.transform) (g : vec -> vec)
  (m : matrix) (yv : vec) (d : nat) :
  length (rows m) = length yv ->
  (forall x, In x (rows m) -> f x = Ok (g x)) ->
  (forall x, In x (rows m) -> length (g x) = d) ->
  Base.init (A2 m) (A1 yv) (Some f)
  = Ok (Base.mkBase (match rows m with
                     | [] => A1 []
                     | _ => A2 (Mat d (map g (rows m)))
                     end) (A1 yv) (Some f)).
Proof.
  intros E Hf Hd. unfold Base.init. cbn [ndim len Nat.eqb negb bind].
  apply Nat.eqb_eq in E. rewrite E. cbn [negb iter_rows bind].
  rewrite (mapM_Ok_map f g (rows m) Hf). cbn [bind].
  destruct (rows m) as [|x xs] eqn:R; [reflexivity|].
  rewrite (array_of_rows_uniform d).
  - reflexivity.
  - discriminate.
  - apply Forall_forall. intros q Hq. apply in_map_iff in Hq.
    destruct Hq as [x' [<- Hx']]. apply Hd, Hx'.
Qed.

Lemma BaseModel_init_with_transform_witness :
  Base.init Inputs.two_X Inputs.two_y (Some (fun x => Ok (1 :: x)))
  = Ok (Base.mkBase (A2 (Mat 2 [[1; 0]; [1; 1]])) Inputs.two_y
                    (Some (fun x => Ok (1 :: x)))).
Proof.
  apply (BaseModel_init_with_transform (fun x => Ok (1 :: x))
           (fun x => 1 :: x) (Mat 1 [[0]; [1]]) [1; - (1)] 2).
  - reflexivity.
  - intros x _. reflexivity.
  - intros x [<-|[<-|[]]]; reflexivity.
Defined.

(** A transform that returns points of different lengths makes
    construction raise [NameError]: [np.array] refuses the ragged list
    inside the [try], and the handler clause is [except e]. *)
Theorem BaseModel_init_ragged_transform (f : Base.transform)
  (g : vec -> vec) (m : matrix) (yv : vec) (x1 x2 : vec) :
  length (rows m) = length yv ->
  (forall x, In x (rows m) -> f x = Ok (g x)) ->
  In x1 (rows m) -> In x2 (rows m) ->
  length (g x1) <> length (g x2) ->
  Base.init (A2 m) (A1 yv) (Some f) = Err (NameError "e").
Proof.
  intros E Hf H1 H2 Hne. unfold Base.init.
  cbn [ndim len Nat.eqb negb bind].
  apply Nat.eqb_eq in E. rewrite E. cbn [negb iter_rows bind].
  rewrite (mapM_Ok_map f g (rows m) Hf). cbn [bind].
  rewrite (array_of_rows_ragged (map g (rows m)) (g x1) (g x2)).
  - reflexivity.
  - apply in_map, H1.
  - apply in_map, H2.
  - exact Hne.
Qed.

Lemma BaseModel_init_ragged_transform_witness :
  Base.init (A2 (Mat 2 [[0; 0]; [1; 1]])) Inputs.two_y
            (Some (fun x => Ok (firstn (Z.to_nat (Qnum (hd 0 x))) x)))
  = Err (NameError "e").
Proof.
  apply (BaseModel_init_ragged_transform
           (fun x => Ok (firstn (Z.to_nat (Qnum (hd 0 x))) x))
           (fun x => firstn (Z.to_nat (Qnum (hd 0 x))) x)
           (Mat 2 [[0; 0]; [1; 1]]) [1; - (1)] [0; 0] [1; 1]).
  - reflexivity.
  - intros x _. reflexivity.
  - simpl. left. reflexivity.
  - simpl. right. left. reflexivity.
  - simpl. discriminate.
Defined.

(** ** kNNModel: construction and single-point classification *)

(** [kNNModel.__init__] succeeds exactly on a rank-2 [X] and a rank-1 [y]
    of equal lengths, and the model it builds holds [X], [y] and [k]
    unchanged and no feature transform. *)
Theorem kNN_init_stores_data (X y : ndarray) (k : Z) :
  (ndim X = 2%nat -> ndim y = 1%nat -> len X = len y ->
   KNN.init X y k = Ok (KNN.mkKNN X y None k))
  /\ (forall self, KNN.init X y k = Ok self ->
        self = KNN.mkKNN X y None k
        /\ ndim X = 2%nat /\ ndim y = 1%nat /\ len X = len y).
Proof.
  split.
  - intros HX Hy Hl. unfold KNN.init.
    destruct X as [q|v|m|e]; try discriminate HX.
    destruct y as [q|yv|my|e]; try discriminate Hy.
    cbn [len] in Hl. injection Hl as Hl.
    rewrite (Base_init_valid m yv Hl). reflexivity.
  - intros self H. unfold KNN.init in H.
    destruct (Base.init X y None) as [b|e] eqn:Hb; [|discriminate].
    destruct (Base_init_Ok_inv _ _ _ Hb)
      as [m [yv [-> [-> [E [Hy [Hft HX]]]]]]].
    cbn [bind] in H. inversion H; subst.
    rewrite Hy, Hft, (HX eq_refl). cbn [ndim len]. rewrite E.
    repeat split; reflexivity.
Qed.

Lemma kNN_init_stores_data_witness :
  KNN.init Inputs.tie_X Inputs.tie_y 1 = Ok Inputs.tie_model.
Proof.
  apply (proj1 (kNN_init_stores_data Inputs.tie_X Inputs.tie_y 1));
    reflexivity.
Defined.

Lemma KNN_classify_Ok_opt (norm : vec -> Q) m yv k0 x ko :
  length (rows m) = length yv ->
  Forall (fun p => length p = length x) (rows m) ->
  KNN.classify norm (KNN.mkKNN (A2 m) (A1 yv) None k0) x ko
  = Ok (KNN.vote (slice_to (match ko with Some k => k | None => k0 end)
                    (sorted tuple_lt
                       (SpecKNN.training_pairs norm (rows m) yv x)))).
Proof.
  intros E Hdim. destruct ko as [k|].
  - apply KNN_classify_Ok; assumption.
  - unfold KNN.classify. cbn [KNN.feat_trans KNN.k bind].
    rewrite (distance_pairs_Ok norm m yv None k0 x E Hdim). reflexivity.
Qed.

Lemma vote_values (l : list (Q * Q)) :
  KNN.vote l = 1%Z \/ KNN.vote l = (-1)%Z.
Proof. unfold KNN.vote. destruct (Qle_bool 0 _); auto. Qed.

Lemma training_pairs_length (norm : vec -> Q) pts labels x :
  length (SpecKNN.training_pairs norm pts labels x) = length pts.
Proof.
  unfold SpecKNN.training_pairs. rewrite length_map, length_seq.
  reflexivity.
Qed.

(** On a model [kNNModel.__init__] built and a query of the dimension of
    the training points, [classify] raises nothing and answers +1 or -1,
    for every [k], negative and zero included, and for the model's own [k]
    when none is passed. *)
Theorem kNN_classify_answers (norm : vec -> Q) (m : matrix) (yv : vec)
  (k0 : Z) (self : KNN.kNNModel) (x : vec) (k : option Z) :
  KNN.init (A2 m) (A1 yv) k0 = Ok self ->
  Forall (fun p => length p = length x) (rows m) ->
  exists l, KNN.classify norm self x k = Ok l
            /\ (l = 1%Z \/ l = (-1)%Z)
            /\ (k = None -> KNN.classify norm self x (Some k0) = Ok l).
Proof.
  intros Hinit Hdim.
  destruct (KNN_init_Ok_inv _ _ _ Hinit) as [E ->].
  rewrite (KNN_classify_Ok_opt norm m yv k0 x k E Hdim).
  eexists. split; [reflexivity|]. split; [apply vote_values|].
  intros ->. rewrite (KNN_classify_Ok_opt norm m yv k0 x (Some k0) E Hdim).
  reflexivity.
Qed.

Lemma kNN_classify_answers_witness :
  exists l, KNN.classify Ref.norm Inputs.tie_model Inputs.tie_query None
            = Ok l
            /\ (l = 1%Z \/ l = (-1)%Z)
            /\ (@None Z = None ->
                KNN.classify Ref.norm Inputs.tie_model Inputs.tie_query
                             (Some 1%Z) = Ok l).
Proof.
  apply (kNN_classify_answers Ref.norm (Mat 1 [[1]; [- (1)]]) [1; - (1)]
                              1 Inputs.tie_model [0] None).
  - reflexivity.
  - repeat constructor.
Defined.

(** When the slice keeps no neighbour the vote is over nothing and the
    answer is +1: with [k = 0], with [k <= -n], and on a training set
    with no point. *)
Theorem kNN_no_neighbour_votes_plus_one (norm : vec -> Q) (m : matrix)
  (yv : vec) (k0 : Z) (self : KNN.kNNModel) (x : vec) (k : Z) :
  KNN.init (A2 m) (A1 yv) k0 = Ok self ->
  Forall (fun p => length p = length x) (rows m) ->
  (rows m = [] \/ k = 0%Z \/ (k <= - Z.of_nat (length (rows m)))%Z) ->
  KNN.classify norm self x (Some k) = Ok 1%Z.
Proof.
  intros Hinit Hdim Hk.
  destruct (KNN_init_Ok_inv _ _ _ Hinit) as [E ->].
  rewrite KNN_classify_Ok by assumption.
  set (s := sorted tuple_lt _).
  assert (Hlen : length s = length (rows m)).
  { unfold s. rewrite sorted_length. apply training_pairs_length. }
  assert (Hnil : slice_to k s = []).
  { unfold slice_to. destruct Hk as [Hr|[->|Hk]].
    - rewrite Hr in Hlen. destruct s; [|discriminate].
      destruct (k <? 0)%Z; apply firstn_nil.
    - reflexivity.
    - destruct (k <? 0)%Z eqn:L.
      + replace (length s - Z.to_nat (- k))%nat with 0%nat by lia.
        reflexivity.
      + apply Z.ltb_ge in L.
        assert (length (rows m) = 0%nat) by lia.
        destruct s; [apply firstn_nil|simpl in Hlen; lia]. }
  rewrite Hnil. reflexivity.
Qed.

Lemma kNN_no_neighbour_votes_plus_one_witness :
  KNN.classify Ref.norm
               (KNN.mkKNN (A2 (Mat 1 [[1]; [2]])) (A1 [- (1); - (1)]) None 1)
               [0] (Some 0%Z)
  = Ok 1%Z.
Proof.
  apply (kNN_no_neighbour_votes_plus_one Ref.norm (Mat 1 [[1]; [2]])
           [- (1); - (1)] 1 _ [0] 0%Z).
  - reflexivity.
  - repeat constructor.
  - right. left. reflexivity.
Defined.

(** A negative [k = -j] drops the [j] farthest neighbours: the answer is
    that of [k = n - j]. *)
Theorem kNN_negative_k_drops_farthest (norm : vec -> Q) (m : matrix)
  (yv : vec) (k0 : Z) (self : KNN.kNNModel) (x : vec) (j : Z) :
  KNN.init (A2 m) (A1 yv) k0 = Ok self ->
  Forall (fun p => length p = length x) (rows m) ->
  (0 < j <= Z.of_nat (length (rows m)))%Z ->
  KNN.classify norm self x (Some (- j)%Z)
  = KNN.classify norm self x (Some (Z.of_nat (length (rows m)) - j)%Z).
Proof.
  intros Hinit Hdim Hj.
  destruct (KNN_init_Ok_inv _ _ _ Hinit) as [E ->].
  rewrite !KNN_classify_Ok by assumption.
  set (s := sorted tuple_lt _).
  assert (Hlen : length s = length (rows m)).
  { unfold s. rewrite sorted_length. apply training_pairs_length. }
  unfold slice_to.
  destruct (- j <? 0)%Z eqn:L1; [|apply Z.ltb_ge in L1; lia].
  destruct (Z.of_nat (length (rows m)) - j <? 0)%Z eqn:L2;
    [apply Z.ltb_lt in L2; lia|].
  do 3 f_equal. lia.
Qed.

Lemma kNN_negative_k_drops_farthest_witness :
  KNN.classify Ref.norm Inputs.tie_model Inputs.tie_query (Some (- (1))%Z)
  = KNN.classify Ref.norm Inputs.tie_model Inputs.tie_query (Some (2 - 1)%Z).
Proof.
  apply (kNN_negative_k_drops_farthest Ref.norm (Mat 1 [[1]; [- (1)]])
           [1; - (1)] 1 Inputs.tie_model [0] 1%Z).
  - reflexivity.
  - repeat constructor.
  - simpl. lia.
Defined.

Lemma Qle_bool_plus_0 (q : Q) : Qle_bool 0 (q + 0) = Qle_bool 0 q.
Proof.
  destruct (Qle_bool 0 q) eqn:E.
  - apply Qle_bool_iff. apply Qle_bool_iff in E. lra.
  - destruct (Qle_bool 0 (q + 0)) eqn:E'; [|reflexivity].
    apply Qle_bool_iff in E'.
    assert (H : Qle_bool 0 q = true) by (apply Qle_bool_iff; lra).
    congruence.
Qed.

Lemma Qle_bool_label (v : Q) :
  Count.is_label v ->
  inject_Z (if Qle_bool 0 v then 1%Z else (-1)%Z) == v.
Proof.
  intros [H|H].
  - assert (E : Qle_bool 0 v = true) by (apply Qle_bool_iff; lra).
    rewrite E, H. reflexivity.
  - destruct (Qle_bool 0 v) eqn:E.
    + apply Qle_bool_iff in E. lra.
    + rewrite H. reflexivity.
Qed.

(** Queried with a training point that no other training point
    coincides with, [classify] with [k = 1] keeps that point as the
    nearest neighbour and answers by its label alone: the label itself
    when it is -1 or +1. *)
Theorem kNN_k1_reproduces_own_label (norm : vec -> Q) (m : matrix)
  (yv : vec) (k0 : Z) (self : KNN.kNNModel) (i : nat) :
  KNN.init (A2 m) (A1 yv) k0 = Ok self ->
  (i < length (rows m))%nat ->
  Forall (fun p => length p = length (nth i (rows m) [])) (rows m) ->
  norm (map2 Qminus (nth i (rows m) []) (nth i (rows m) [])) == 0 ->
  (forall j, (j < length (rows m))%nat -> j <> i ->
     0 < norm (map2 Qminus (nth i (rows m) []) (nth j (rows m) []))) ->
  exists l,
    KNN.classify norm self (nth i (rows m) []) (Some 1%Z) = Ok l
    /\ l = (if Qle_bool 0 (nth i yv 0) then 1%Z else (-1)%Z)
    /\ (Count.is_label (nth i yv 0) -> inject_Z l == nth i yv 0).
Proof.
  intros Hinit Hi Hdim Hzero Hpos.
  destruct (KNN_init_Ok_inv _ _ _ Hinit) as [E ->].
  set (x := nth i (rows m) []) in *.
  rewrite KNN_classify_Ok by assumption.
  set (ps := SpecKNN.training_pairs norm (rows m) yv x).
  pose proof (sorted_perm tuple_lt ps) as Hperm.
  pose proof (sorted_sorted ps) as Hsort.
  assert (Hin_i : In (norm (map2 Qminus x x), nth i yv 0) ps).
  { unfold ps, SpecKNN.training_pairs. apply in_map_iff.
    exists i. split; [reflexivity|]. apply in_seq. lia. }
  destruct (sorted tuple_lt ps) as [|h t] eqn:S.
  { apply Permutation_sym, Permutation_nil in Hperm.
    rewrite Hperm in Hin_i. destruct Hin_i. }
  assert (Hh : snd h = nth i yv 0).
  { assert (Hin_h : In h ps)
      by (apply (Permutation_in _ (Permutation_sym Hperm)); left;
          reflexivity).
    unfold ps, SpecKNN.training_pairs in Hin_h.
    apply in_map_iff in Hin_h. destruct Hin_h as [j [Hj Hjn]].
    apply in_seq in Hjn.
    destruct (Nat.eq_dec j i) as [->|Hne]; [rewrite <- Hj; reflexivity|].
    assert (Hfst : 0 < fst h).
    { rewrite <- Hj. cbn [fst]. apply Hpos; [lia|exact Hne]. }
    apply (Permutation_in _ Hperm) in Hin_i.
    destruct Hin_i as [Heq|Hin_t].
    - rewrite Heq in Hfst. cbn [fst] in Hfst. lra.
    - inversion Hsort as [|? ? _ Hall]; subst.
      rewrite Forall_forall in Hall. apply Hall in Hin_t.
      unfold tuple_le in Hin_t. cbn [fst snd] in Hin_t, Hfst.
      exfalso. lra. }
  change (slice_to 1 (h :: t)) with [h].
  unfold KNN.vote, sum. cbn [map fold_right].
  rewrite Hh, Qle_bool_plus_0.
  eexists. split; [reflexivity|]. split; [reflexivity|].
  apply Qle_bool_label.
Qed.

Lemma kNN_k1_reproduces_own_label_witness :
  exists l,
    KNN.classify Ref.norm
                 (KNN.mkKNN (A2 (Mat 2 [[0; 2]; [0; - (2)]]))
                            (A1 [1; - (1)]) None 1)
                 [0; - (2)] (Some 1%Z) = Ok l
    /\ l = (-1)%Z
    /\ (Count.is_label (- (1)) -> inject_Z l == - (1)).
Proof.
  apply (kNN_k1_reproduces_own_label Ref.norm
           (Mat 2 [[0; 2]; [0; - (2)]]) [1; - (1)] 1 _ 1%nat).
  - reflexivity.
  - simpl. lia.
  - repeat constructor.
  - vm_compute. reflexivity.
  - intros j Hj Hne. simpl in Hj.
    assert (j = 0%nat) as -> by lia. vm_compute. reflexivity.
Defined.

Lemma sub_mismatch (a b : vec) :
  length a <> length b -> length a <> 1%nat -> length b <> 1%nat ->
  sub a b = Err LibValueError.
Proof.
  intros Hab Ha Hb. unfold sub.
  apply Nat.eqb_neq in Hab. rewrite Hab.
  destruct a as [|a0 [|a1 a']]; destruct b as [|b0 [|b1 b']];
    try reflexivity; simpl in *; congruence.
Qed.

(** A query whose dimension differs from that of the training points
    (neither being 1, which numpy would broadcast) makes [classify] raise
    numpy's [ValueError] on the first training point. *)
Theorem kNN_classify_wrong_dimension (norm : vec -> Q) (m : matrix)
  (yv : vec) (k0 : Z) (self : KNN.kNNModel) (x : vec) (k : option Z)
  (r0 : vec) (rs : list vec) :
  KNN.init (A2 m) (A1 yv) k0 = Ok self ->
  rows m = r0 :: rs ->
  length x <> length r0 -> length x <> 1%nat -> length r0 <> 1%nat ->
  KNN.classify norm self x k = Err LibValueError.
Proof.
  intros Hinit Hr Hx H1 H2.
  destruct (KNN_init_Ok_inv _ _ _ Hinit) as [E ->].
  unfold KNN.classify, KNN.distance_pairs.
  cbn [KNN.feat_trans KNN.X KNN.y len bind]. rewrite Hr.
  cbn [length seq mapM getitem2 rows]. rewrite Hr.
  cbn [nth_error bind]. unfold KNN._euclidean_distance.
  rewrite (sub_mismatch x r0 Hx H1 H2). reflexivity.
Qed.

Lemma kNN_classify_wrong_dimension_witness :
  KNN.classify Ref.norm
               (KNN.mkKNN (A2 (Mat 2 [[0; 2]; [0; - (2)]]))
                          (A1 [1; - (1)]) None 1)
               [0; 0; 0] None
  = Err LibValueError.
Proof.
  apply (kNN_classify_wrong_dimension Ref.norm
           (Mat 2 [[0; 2]; [0; - (2)]]) [1; - (1)] 1 _ [0; 0; 0] None
           [0; 2] [[0; - (2)]]).
  - reflexivity.
  - reflexivity.
  - simpl. lia.
  - simpl. lia.
  - simpl. lia.
Defined.

(** ** kNNModel: batches and the error rate *)

Lemma Forall2_map_right {A B} (R : A -> B -> Prop) (g : A -> B)
  (l : list A) :
  (forall a, In a l -> R a (g a)) -> Forall2 R l (map g l).
Proof.
  induction l as [|a l IH]; intros H; simpl; constructor.
  - apply H. left. reflexivity.
  - apply IH. intros b Hb. apply H. right. exact Hb.
Qed.

Lemma KNN_classify_all_Ok (norm : vec -> Q) m yv k0 X0 ko :
  length (rows m) = length yv ->
  Forall (fun x => Forall (fun p => length p = length x) (rows m))
         (rows X0) ->
  KNN.classify_all norm (KNN.mkKNN (A2 m) (A1 yv) None k0) X0 ko
  = Ok (map (fun x =>
               KNN.vote (slice_to
                           (match ko with Some k => k | None => k0 end)
                           (sorted tuple_lt
                              (SpecKNN.training_pairs norm (rows m) yv x))))
            (rows X0)).
Proof.
  intros E Hdim. unfold KNN.classify_all. cbn [KNN.k].
  apply mapM_Ok_map. intros x Hx. rewrite Forall_forall in Hdim.
  rewrite KNN_classify_Ok by auto. reflexivity.
Qed.

(** [classify_all] answers point by point: on a batch of points of the
    training dimension it returns one label per point, in order, each the
    answer [classify] gives for that point with the same [k]. *)
Theorem kNN_classify_all_pointwise (norm : vec -> Q) (m : matrix)
  (yv : vec) (k0 : Z) (self : KNN.kNNModel) (X0 : matrix) (k : option Z) :
  KNN.init (A2 m) (A1 yv) k0 = Ok self ->
  Forall (fun x => Forall (fun p => length p = length x) (rows m))
         (rows X0) ->
  exists ls,
    KNN.classify_all norm self X0 k = Ok ls
    /\ length ls = length (rows X0)
    /\ Forall2 (fun x l => KNN.classify norm self x k = Ok l) (rows X0) ls
    /\ Forall (fun l => l = 1%Z \/ l = (-1)%Z) ls.
Proof.
  intros Hinit Hdim.
  destruct (KNN_init_Ok_inv _ _ _ Hinit) as [E ->].
  rewrite (KNN_classify_all_Ok norm m yv k0 X0 k E Hdim).
  eexists. split; [reflexivity|]. split; [apply length_map|]. split.
  - apply Forall2_map_right. intros x Hx. rewrite Forall_forall in Hdim.
    apply KNN_classify_Ok_opt; auto.
  - apply Forall_forall. intros l Hl. apply in_map_iff in Hl.
    destruct Hl as [x [<- _]]. apply vote_values.
Qed.

Lemma kNN_classify_all_pointwise_witness :
  exists ls,
    KNN.classify_all Ref.norm Inputs.tie_model (Mat 1 [[2]; [- (3)]]) None
    = Ok ls
    /\ length ls = 2%nat
    /\ Forall2 (fun x l => KNN.classify Ref.norm Inputs.tie_model x None
                           = Ok l) [[2]; [- (3)]] ls
    /\ Forall (fun l => l = 1%Z \/ l = (-1)%Z) ls.
Proof.
  apply (kNN_classify_all_pointwise Ref.norm (Mat 1 [[1]; [- (1)]])
           [1; - (1)] 1 Inputs.tie_model (Mat 1 [[2]; [- (3)]]) None).
  - reflexivity.
  - repeat constructor.
Defined.

Lemma sum_half_abs_diff (p yl : vec) :
  Forall Count.is_label p -> Forall Count.is_label yl ->
  length p = length yl ->
  sum (map (fun v => Qabs v / 2) (map2 Qminus p yl))
  == inject_Z (Z.of_nat (Count.disagreements p yl)).
Proof.
  intros Hp. revert yl.
  induction Hp as [|a p Ha Hp IH]; intros yl Hy Hlen;
    destruct yl as [|b yl]; try discriminate.
  - reflexivity.
  - inversion Hy as [|? ? Hb Hy']; subst.
    injection Hlen as Hlen. specialize (IH yl Hy' Hlen).
    unfold Count.disagreements in *. cbn [map2 map sum fold_right] in *.
    cbn [combine filter fst snd].
    unfold sum in IH. rewrite IH.
    destruct (Qeq_bool a b) eqn:Eab; cbn [negb length].
    + apply Qeq_bool_iff in Eab.
      assert (H0 : a - b == 0) by lra. rewrite H0.
      setoid_replace (Qabs 0 / 2) with 0 by reflexivity. lra.
    + apply Qeq_bool_neq in Eab. rewrite Nat2Z.inj_succ.
      unfold Z.succ. rewrite inject_Z_plus. change (inject_Z 1) with 1.
      destruct Ha as [Ha|Ha], Hb as [Hb|Hb]; try (exfalso; lra).
      * assert (H2 : a - b == 2) by lra. rewrite H2.
        setoid_replace (Qabs 2 / 2) with 1 by reflexivity. lra.
      * assert (H2 : a - b == - (2)) by lra. rewrite H2.
        setoid_replace (Qabs (- (2)) / 2) with 1 by reflexivity. lra.
Qed.

Lemma disagreements_le (p yl : vec) :
  (Count.disagreements p yl <= length yl)%nat.
Proof.
  unfold Count.disagreements.
  eapply Nat.le_trans; [apply filter_length_le|].
  rewrite length_combine. apply Nat.le_min_r.
Qed.

(** On a batch of points of the training dimension with as many -1/+1
    labels as points, [classification_error] is the number of points
    whose predicted label differs from the label given, divided by the
    number of labels: a rate between 0 and 1, 0 exactly when no
    prediction differs. *)
Theorem kNN_classification_error_rate (norm : vec -> Q) (m : matrix)
  (yv : vec) (k0 : Z) (self : KNN.kNNModel) (X0 : matrix) (y0 : vec)
  (k : option Z) :
  KNN.init (A2 m) (A1 yv) k0 = Ok self ->
  Forall (fun x => Forall (fun p => length p = length x) (rows m))
         (rows X0) ->
  length y0 = length (rows X0) ->
  y0 <> [] ->
  Forall Count.is_label y0 ->
  exists preds e,
    KNN.classify_all norm self X0 k = Ok preds
    /\ KNN.classification_error norm self X0 y0 k = Ok (Fin e)
    /\ e == inject_Z (Z.of_nat (Count.disagreements (map inject_Z preds)
                                                    y0))
            / inject_Z (Z.of_nat (length y0))
    /\ 0 <= e <= 1
    /\ (e == 0 <-> Count.disagreements (map inject_Z preds) y0 = 0%nat).
Proof.
  intros Hinit Hdim Hlen Hne Hlab.
  destruct (KNN_init_Ok_inv _ _ _ Hinit) as [E ->].
  pose proof (KNN_classify_all_Ok norm m yv k0 X0 k E Hdim) as Hall.
  set (self := KNN.mkKNN (A2 m) (A1 yv) None k0) in *.
  set (preds := map _ (rows X0)) in Hall.
  assert (Hpl : length preds = length (rows X0))
    by (unfold preds; apply length_map).
  assert (Hpv : Forall (fun l => l = 1%Z \/ l = (-1)%Z) preds).
  { apply Forall_forall. intros l Hl. unfold preds in Hl.
    apply in_map_iff in Hl. destruct Hl as [x [<- _]]. apply vote_values. }
  exists preds.
  assert (Hall' : KNN.classify_all norm self X0
                    (Some (match k with Some k' => k' | None => KNN.k self
                           end)) = Ok preds).
  { rewrite <- Hall. destruct k; reflexivity. }
  unfold KNN.classification_error. rewrite Hall'. cbn [bind].
  rewrite sub_same_length by (rewrite length_map; congruence).
  cbn [bind].
  assert (Hpl' : Forall Count.is_label (map inject_Z preds)).
  { apply Forall_forall. intros v Hv. apply in_map_iff in Hv.
    destruct Hv as [l [<- Hl]]. rewrite Forall_forall in Hpv.
    destruct (Hpv l Hl) as [->| ->]; [left|right]; reflexivity. }
  assert (Hsum := sum_half_abs_diff (map inject_Z preds) y0 Hpl' Hlab
                    ltac:(rewrite length_map; congruence)).
  pose proof (disagreements_le (map inject_Z preds) y0) as Hle.
  set (c := Count.disagreements (map inject_Z preds) y0) in *.
  assert (HN : (0 < length y0)%nat)
    by (destruct y0; [contradiction|simpl; lia]).
  unfold true_divide.
  destruct (length y0) as [|n'] eqn:EN; [lia|].
  set (N := S n') in *.
  eexists. split; [exact Hall|]. split; [reflexivity|].
  assert (HNq : 0 < inject_Z (Z.of_nat N)).
  { change 0 with (inject_Z 0). rewrite <- Zlt_Qlt. lia. }
  assert (Hc0 : 0 <= inject_Z (Z.of_nat c)).
  { change 0 with (inject_Z 0). rewrite <- Zle_Qle. lia. }
  assert (HcN : inject_Z (Z.of_nat c) <= inject_Z (Z.of_nat N)).
  { rewrite <- Zle_Qle. lia. }
  rewrite Hsum. split; [reflexivity|]. split; [split|split].
  - apply Qle_shift_div_l; [exact HNq|]. lra.
  - apply Qle_shift_div_r; [exact HNq|]. lra.
  - intros H0.
    assert (Hq : inject_Z (Z.of_nat c) == 0).
    { rewrite <- (Qmult_div_r (inject_Z (Z.of_nat c))
                              (inject_Z (Z.of_nat N)))
        by lra.
      rewrite H0. lra. }
    change 0 with (inject_Z 0) in Hq.
    apply (proj1 (inject_Z_injective _ _)) in Hq. lia.
  - intros ->. reflexivity.
Qed.

Lemma kNN_classification_error_rate_witness :
  exists preds e,
    KNN.classify_all Ref.norm Inputs.tie_model (Mat 1 [[2]; [- (3)]]) None
    = Ok preds
    /\ KNN.classification_error Ref.norm Inputs.tie_model
         (Mat 1 [[2]; [- (3)]]) [1; 1] None = Ok (Fin e)
    /\ e == inject_Z (Z.of_nat (Count.disagreements (map inject_Z preds)
                                                    [1; 1]))
            / inject_Z (Z.of_nat 2)
    /\ 0 <= e <= 1
    /\ (e == 0
        <-> Count.disagreements (map inject_Z preds) [1; 1] = 0%nat).
Proof.
  apply (kNN_classification_error_rate Ref.norm (Mat 1 [[1]; [- (1)]])
           [1; - (1)] 1 Inputs.tie_model (Mat 1 [[2]; [- (3)]]) [1; 1]
           None).
  - reflexivity.
  - repeat constructor.
  - reflexivity.
  - discriminate.
  - repeat constructor; left; reflexivity.
Defined.




(** ** LinearModel: the in-sample error and the pocket loop *)

Lemma sum_squares_nonneg (v : vec) : 0 <= sum (map2 Qmult v v).
Proof.
  unfold sum. induction v as [|a v IH]; simpl; [lra|]. nra.
Qed.

(** Called without [w] on a model whose weights have the width of [X],
    [_calc_E_in] returns the number of training points whose predicted
    sign (ties to +1) differs from their -1/+1 label, plus [r] times the
    squared norm of the weights; with [r >= 0] it is not negative. *)
Theorem LinearModel_E_in_counts_misclassified (self : Linear.LinearModel)
  (m : matrix) (yv wv : vec) :
  Linear.X self = A2 m ->
  Linear.y self = A1 yv ->
  Linear.w self = Some wv ->
  ncols m = length wv ->
  length (rows m) = length yv ->
  Forall Count.is_label yv ->
  exists e,
    Linear._calc_E_in self None = Ok e
    /\ e == inject_Z
              (Z.of_nat
                 (Count.disagreements
                    (map (fun p => if Qle_bool 0 (sum (map2 Qmult p wv))
                                   then 1 else - (1)) (rows m))
                    yv))
            + Linear.r self * sum (map2 Qmult wv wv)
    /\ (0 <= Linear.r self -> 0 <= e).
Proof.
  intros HX Hy Hw Hc Hlen Hlab.
  unfold Linear._calc_E_in, Linear.get_w. rewrite Hw, HX, Hy.
  cbn [bind]. unfold matmul_vec. rewrite Hc, Nat.eqb_refl. cbn [bind].
  rewrite sign_inplace_map, map_map.
  set (pred := map _ (rows m)).
  assert (Hpl : length pred = length yv)
    by (unfold pred; rewrite length_map; exact Hlen).
  rewrite sub_same_length by (symmetry; exact Hpl). cbn [bind].
  unfold dot. rewrite Nat.eqb_refl. cbn [bind].
  assert (Hpred : Forall Count.is_label pred).
  { apply Forall_forall. intros v Hv. unfold pred in Hv.
    apply in_map_iff in Hv. destruct Hv as [p [<- _]].
    destruct (Qle_bool 0 _); [left|right]; reflexivity. }
  pose proof (sum_half_abs_diff pred yv Hpred Hlab Hpl) as Hsum.
  eexists. split; [reflexivity|]. split.
  - rewrite Hsum. reflexivity.
  - intros Hr. rewrite Hsum.
    pose proof (sum_squares_nonneg wv) as Hsq.
    assert (H0 : 0 <= inject_Z (Z.of_nat (Count.disagreements pred yv))).
    { change 0 with (inject_Z 0). rewrite <- Zle_Qle. lia. }
    pose proof (Qmult_le_0_compat _ _ Hr Hsq). lra.
Qed.

Lemma LinearModel_E_in_counts_misclassified_witness :
  exists e,
    Linear._calc_E_in
      (Linear.mkLinear (A2 (Mat 2 [[1; 1]; [1; - (3)]])) (A1 [- (1); - (1)])
                       None (1 # 2) false 1 (Some [1; 1]))
      None = Ok e
    /\ e == inject_Z
              (Z.of_nat
                 (Count.disagreements
                    (map (fun p => if Qle_bool 0 (sum (map2 Qmult p [1; 1]))
                                   then 1 else - (1))
                         [[1; 1]; [1; - (3)]])
                    [- (1); - (1)]))
            + (1 # 2) * sum (map2 Qmult [1; 1] [1; 1])
    /\ (0 <= 1 # 2 -> 0 <= e).
Proof.
  apply (LinearModel_E_in_counts_misclassified
           (Linear.mkLinear (A2 (Mat 2 [[1; 1]; [1; - (3)]]))
                            (A1 [- (1); - (1)]) None (1 # 2) false 1
                            (Some [1; 1]))
           (Mat 2 [[1; 1]; [1; - (3)]]) [- (1); - (1)] [1; 1]).
  - reflexivity.
  - reflexivity.
  - reflexivity.
  - reflexivity.
  - reflexivity.
  - repeat constructor; right; reflexivity.
Defined.

Lemma search_keeps_pocket self st draws st' draws' :
  Linear._calc_E_in self (Some (Linear.best st)) = Ok (Linear.E_best st) ->
  Linear.search self st draws = Some (Ok st', draws') ->
  Linear._calc_E_in self (Some (Linear.best st')) = Ok (Linear.E_best st')
  /\ Linear.E_best st' <= Linear.E_best st.
Proof.
  intros Hinv. revert st' draws'.
  induction draws as [|i draws IH]; intros st' draws' H;
    cbn [Linear.search] in H; [discriminate|].
  destruct (_ <- len (Linear.X self) ;; _) as [[[Xi c] yi]|e];
    [|inversion H].
  destruct (negb (Qeq_bool (inject_Z c) yi)).
  - destruct (iadd _ _) as [w'|e]; cbn [bind] in H; [|inversion H].
    destruct (Linear._calc_E_in self (Some w')) as [E|e] eqn:HE;
      cbn [bind] in H; [|inversion H].
    destruct (Qltb E (Linear.E_best st)) eqn:L; inversion H; subst;
      cbn [Linear.best Linear.E_best].
    + split; [exact HE|]. apply Qlt_le_weak, Qltb_lt, L.
    + split; [exact Hinv|apply Qle_refl].
  - exact (IH _ _ H).
Qed.

(** When the training loop ends, the weights it returns are pocket
    weights: their in-sample error is the pocket error, which is at most
    the pocket error the loop started from. *)
Theorem pocket_loop_returns_best_seen (self : Linear.LinearModel)
  (n : nat) (st : Linear.pocket) (draws : list nat) (wb : vec) :
  Linear._calc_E_in self (Some (Linear.best st)) = Ok (Linear.E_best st) ->
  Linear.loop self n st draws = Some (Ok wb) ->
  exists E, Linear._calc_E_in self (Some wb) = Ok E
            /\ E <= Linear.E_best st.
Proof.
  revert st draws. induction n as [|n IH]; intros st draws Hinv H;
    cbn [Linear.loop] in H.
  - injection H as <-. exists (Linear.E_best st).
    split; [exact Hinv|apply Qle_refl].
  - destruct (Linear.search self st draws) as [[[st'|e] draws']|] eqn:S;
      try discriminate.
    destruct (search_keeps_pocket self st draws st' draws' Hinv S)
      as [Hinv' Hle].
    destruct (IH st' draws' Hinv' H) as [E [HE HEle]].
    exists E. split; [exact HE|]. eapply Qle_trans; eassumption.
Qed.

Lemma pocket_loop_returns_best_seen_witness :
  exists E,
    Linear._calc_E_in
      (Linear.mkLinear (A2 (Mat 1 [[1]])) (A1 [- (1)]) None 0 false 2 None)
      (Some [- (1)]) = Ok E
    /\ E <= 2 # 2.
Proof.
  apply (pocket_loop_returns_best_seen
           (Linear.mkLinear (A2 (Mat 1 [[1]])) (A1 [- (1)]) None 0 false 2
                            None)
           2 (Linear.mkPocket [1] [1] (2 # 2)) [0; 0]%nat [- (1)]).
  - vm_compute. reflexivity.
  - vm_compute. reflexivity.
Defined.

Lemma LinearModel_classify_all_default_w_witness :
  Linear.classify_all Inputs.lin_model (Mat 2 [[1; 1]; [- (3); 1]; [0; 0]])
                      None
  = Ok [1; - (1); 1].
Proof.
  apply (@LinearModel_classify_all_default_w Inputs.lin_model
           (Mat 2 [[1; 1]; [- (3); 1]; [0; 0]]) [1; 1]);
    reflexivity.
Defined.

(** ** RBFModel: construction and batches *)

Lemma mapM_Err_inv {A B} (f : A -> result B) (l : list A) (e : exn) :
  mapM f l = Err e -> exists a, In a l /\ f a = Err e.
Proof.
  induction l as [|a l IH]; simpl; [discriminate|].
  destruct (f a) as [b|e'] eqn:Fa; simpl.
  - destruct (mapM f l) as [bs|e'']; simpl; [discriminate|].
    intros H. injection H as ->. destruct (IH eq_refl) as [a' [Hin Ha']].
    exists a'. split; [right; exact Hin|exact Ha'].
  - intros H. injection H as ->. exists a. split; [left; reflexivity|].
    exact Fa.
Qed.

Lemma mapM_Forall {A B} (f : A -> result B) (P : B -> Prop) (l : list A)
  (l' : list B) :
  mapM f l = Ok l' -> (forall a b, f a = Ok b -> P b) -> Forall P l'.
Proof.
  revert l'. induction l as [|a l IH]; intros l' H HP; simpl in H.
  - injection H as <-. constructor.
  - destruct (f a) as [b|e] eqn:Fa; simpl in H; [|discriminate].
    destruct (mapM f l) as [bs|e]; simpl in H; [|discriminate].
    injection H as <-. constructor; [exact (HP a b Fa)|].
    apply IH; [reflexivity|exact HP].
Qed.

Lemma sub_Err (a b : vec) (e : exn) : sub a b = Err e -> e = LibValueError.
Proof.
  unfold sub. destruct (Nat.eqb (length a) (length b)); [discriminate|].
  destruct a as [|a0 [|a1 a']]; destruct b as [|b0 [|b1 b']];
    intros H; inversion H; reflexivity.
Qed.

Lemma RBF_feat_trans_shape (norm : vec -> Q) Mu kern r x z :
  RBF._feat_trans norm Mu kern r x = Ok z ->
  exists zs, z = 1 :: zs /\ length zs = length Mu.
Proof.
  unfold RBF._feat_trans. intros H.
  destruct (mapM _ Mu) as [zs|e] eqn:Hm; simpl in H; [|discriminate].
  injection H as <-. exists zs. split; [reflexivity|].
  exact (mapM_length _ _ Hm).
Qed.

Lemma RBF_feat_trans_Err (norm : vec -> Q) Mu kern r x e :
  RBF._feat_trans norm Mu kern r x = Err e -> e = LibValueError.
Proof.
  unfold RBF._feat_trans. intros H.
  destruct (mapM _ Mu) as [zs|e'] eqn:Hm; simpl in H; [discriminate|].
  injection H as ->. apply mapM_Err_inv in Hm.
  destruct Hm as [mu [_ Hmu]].
  destruct (sub x mu) as [d|e'] eqn:Hs; simpl in Hmu; [discriminate|].
  injection Hmu as ->. exact (sub_Err _ _ _ Hs).
Qed.

Lemma RBF_init_Ok_full norm inv exp X y Mu kern0 r self :
  RBF.init norm inv exp X y Mu kern0 r = Ok self ->
  exists m yv pts Mi,
    X = A2 m /\ y = A1 yv /\ length (rows m) = length yv
    /\ mapM (RBF._feat_trans norm Mu (RBF.kern_or_default exp kern0) r)
            (rows m) = Ok pts
    /\ pts <> []
    /\ Forall (fun p => exists zs, p = 1 :: zs /\ length zs = length Mu)
              pts
    /\ RBF.X self = A2 (Mat (S (length Mu)) pts)
    /\ RBF.y self = A1 yv
    /\ inv (matmul (transpose (S (length Mu)) pts) (S (length Mu)) pts)
       = Some Mi
    /\ RBF.w self
       = Some (matvec (matmul Mi (length pts)
                              (transpose (S (length Mu)) pts)) yv).
Proof.
  unfold RBF.init. intros H.
  destruct (Base.init X y None) as [b|e] eqn:Hb; cbn [bind] in H;
    [|discriminate].
  destruct (Base_init_Ok_inv _ _ _ Hb) as [m [yv [-> [-> [E [Hy _]]]]]].
  cbn [iter_rows bind] in H.
  destruct (mapM _ (rows m)) as [pts|e] eqn:Hm; cbn [bind] in H;
    [|discriminate].
  assert (Hshape : Forall (fun p => exists zs, p = 1 :: zs
                                    /\ length zs = length Mu) pts).
  { apply (mapM_Forall _ _ _ _ Hm). intros a p Hp.
    exact (RBF_feat_trans_shape _ _ _ _ _ _ Hp). }
  destruct pts as [|p ps]; [cbn in H; discriminate|].
  assert (HA : array_of_rows (p :: ps)
               = Ok (A2 (Mat (S (length Mu)) (p :: ps)))).
  { apply array_of_rows_uniform; [discriminate|].
    eapply Forall_impl; [|exact Hshape].
    intros q [zs [-> Hz]]. simpl. rewrite Hz. reflexivity. }
  rewrite HA in H. cbn [bind] in H.
  unfold RBF._calc_w_lin in H. cbn [RBF.X RBF.y] in H. rewrite Hy in H.
  destruct (inv _) as [Mi|] eqn:Hinv; cbn [bind] in H; [|discriminate].
  injection H as <-. cbn [RBF.X RBF.y RBF.w].
  exists m, yv, (p :: ps), Mi.
  repeat split; try assumption; try reflexivity. discriminate.
Qed.

(** A model [RBFModel.__init__] built holds, for each training point in
    order, a row of [len(Mu) + 1] features whose first is the constant 1;
    it holds [y] unchanged, and its training set was not empty. *)
Theorem RBF_init_stores_features (norm : vec -> Q)
  (inv : list vec -> option (list vec)) (exp : Q -> Q) (X y : ndarray)
  (Mu : list vec) (kern0 : option (Q -> Q)) (r : Q) (self : RBF.RBFModel) :
  RBF.init norm inv exp X y Mu kern0 r = Ok self ->
  exists m yv pts,
    X = A2 m /\ y = A1 yv
    /\ RBF.y self = A1 yv
    /\ RBF.X self = A2 (Mat (S (length Mu)) pts)
    /\ length pts = length (rows m)
    /\ pts <> []
    /\ Forall (fun p => length p = S (length Mu) /\ nth_error p 0 = Some 1)
              pts.
Proof.
  intros H.
  destruct (RBF_init_Ok_full _ _ _ _ _ _ _ _ _ H)
    as [m [yv [pts [Mi [HX [Hy [_ [Hm [Hne [Hsh [HXs [Hys _]]]]]]]]]]]].
  exists m, yv, pts. repeat split; try assumption.
  - exact (mapM_length _ _ Hm).
  - eapply Forall_impl; [|exact Hsh].
    intros p [zs [-> Hz]]. simpl. rewrite Hz. split; reflexivity.
Qed.

Lemma RBF_init_stores_features_witness :
  exists self m yv pts,
    RBF.init Ref.norm Ref.inv Ref.exp Inputs.two_X Inputs.two_y [[0]] None 2
    = Ok self
    /\ Inputs.two_X = A2 m /\ Inputs.two_y = A1 yv
    /\ RBF.y self = A1 yv
    /\ RBF.X self = A2 (Mat 2 pts)
    /\ length pts = length (rows m)
    /\ pts <> []
    /\ Forall (fun p => length p = 2%nat /\ nth_error p 0 = Some 1) pts.
Proof.
  destruct (RBF.init Ref.norm Ref.inv Ref.exp Inputs.two_X Inputs.two_y
              [[0]] None 2) as [self|e] eqn:E.
  - exists self.
    destruct (RBF_init_stores_features Ref.norm Ref.inv Ref.exp
                Inputs.two_X Inputs.two_y [[0]] None 2 self E)
      as [m [yv [pts H]]].
    exists m, yv, pts. split; [reflexivity|exact H].
  - assert (H : is_Ok (RBF.init Ref.norm Ref.inv Ref.exp Inputs.two_X
                         Inputs.two_y [[0]] None 2) = true)
      by (vm_compute; reflexivity).
    rewrite E in H. discriminate H.
Defined.

(** On a training set with no point, [RBFModel.__init__] raises
    [LinAlgError]: the transformed [X] is an empty rank-1 array and
    [np.linalg.inv] is handed the scalar [X.T @ X]. *)
Theorem RBF_init_empty_training_set (norm : vec -> Q)
  (inv : list vec -> option (list vec)) (exp : Q -> Q) (m : matrix)
  (yv : vec) (Mu : list vec) (kern0 : option (Q -> Q)) (r : Q) :
  rows m = [] -> yv = [] ->
  RBF.init norm inv exp (A2 m) (A1 yv) Mu kern0 r = Err LinAlgError.
Proof.
  intros Hr ->. unfold RBF.init.
  rewrite (Base_init_valid m [] ltac:(rewrite Hr; reflexivity)).
  cbn [bind iter_rows]. rewrite Hr. reflexivity.
Qed.

Lemma RBF_init_empty_training_set_witness :
  RBF.init Ref.norm Ref.inv Ref.exp (A2 (Mat 3 [])) (A1 []) [[0; 0; 0]]
           None 2
  = Err LinAlgError.
Proof.
  apply (RBF_init_empty_training_set Ref.norm Ref.inv Ref.exp (Mat 3 [])
           [] [[0; 0; 0]] None 2); reflexivity.
Defined.

Lemma Ref_inv_length (M Mi : list vec) :
  Ref.inv M = Some Mi -> length Mi = length M.
Proof.
  unfold Ref.inv. destruct (Qeq_bool _ 0); [discriminate|].
  intros H. injection H as <-. rewrite length_map, length_seq. reflexivity.
Qed.

(** A model [RBFModel.__init__] built classifies every non-empty batch of
    points of the dimension of the centers: [classify_all] returns, for
    each point in order, +1 when the dot product of the weights with the
    point's features [1, kern(norm(x - Mu[i]) / r), ...] is 0 or more and
    -1 otherwise ([np.linalg.inv] returning a matrix of the size of its
    argument). *)
Theorem RBF_classify_all_on_built_model (norm : vec -> Q)
  (inv : list vec -> option (list vec)) (exp : Q -> Q) (X y : ndarray)
  (Mu : list vec) (kern0 : option (Q -> Q)) (r : Q) (self : RBF.RBFModel)
  (X0 : matrix) :
  (forall M Mi, inv M = Some Mi -> length Mi = length M) ->
  RBF.init norm inv exp X y Mu kern0 r = Ok self ->
  rows X0 <> [] ->
  Forall (fun x => Forall (fun mu => length mu = length x) Mu) (rows X0) ->
  exists wv,
    RBF.w self = Some wv
    /\ length wv = S (length Mu)
    /\ RBF.classify_all self X0
       = Ok (map (fun x =>
                    if Qle_bool 0
                         (sum (map2 Qmult
                                 (1 :: map (fun mu =>
                                              RBF.kern self
                                                (norm (map2 Qminus x mu) / r))
                                           Mu)
                                 wv))
                    then 1 else - (1))
                 (rows X0)).
Proof.
  intros Hinv Hinit Hne Hdim.
  destruct (RBF_init_Ok_inv _ _ _ _ _ _ _ _ Hinit) as [Hk [Hft _]].
  destruct (RBF_init_Ok_full _ _ _ _ _ _ _ _ _ Hinit)
    as [m [yv [pts [Mi [_ [_ [_ [_ [_ [_ [_ [_ [HMi Hw]]]]]]]]]]]]].
  assert (Hlen : length (matvec (matmul Mi (length pts)
                                  (transpose (S (length Mu)) pts)) yv)
                 = S (length Mu)).
  { unfold matvec, matmul. rewrite !length_map.
    rewrite (Hinv _ _ HMi). unfold matmul, transpose.
    rewrite !length_map, length_seq. reflexivity. }
  set (wv := matvec _ yv) in *.
  exists wv. split; [exact Hw|]. split; [exact Hlen|].
  set (g := fun x => 1 :: map (fun mu => RBF.kern self
                                 (norm (map2 Qminus x mu) / r)) Mu).
  rewrite (@RBF_classify_all_sign self X0 _ (map g (rows X0)) wv Hft).
  - rewrite map_map. reflexivity.
  - apply mapM_Ok_map. intros x Hx. rewrite Forall_forall in Hdim.
    unfold g. rewrite Hk. apply RBF_feat_trans_Ok. exact (Hdim x Hx).
  - destruct (rows X0); [contradiction|discriminate].
  - apply Forall_forall. intros p Hp. apply in_map_iff in Hp.
    destruct Hp as [x [<- _]]. unfold g. simpl.
    rewrite length_map, Hlen. reflexivity.
  - exact Hw.
Qed.

Lemma RBF_classify_all_on_built_model_witness :
  exists self wv,
    RBF.init Ref.norm Ref.inv Ref.exp Inputs.two_X Inputs.two_y [[0]] None 2
    = Ok self
    /\ RBF.w self = Some wv
    /\ length wv = 2%nat
    /\ RBF.classify_all self (Mat 1 [[0]; [3]])
       = Ok (map (fun x =>
                    if Qle_bool 0
                         (sum (map2 Qmult
                                 (1 :: map (fun mu =>
                                              RBF.kern self
                                                (Ref.norm (map2 Qminus x mu)
                                                 / 2))
                                           [[0]])
                                 wv))
                    then 1 else - (1))
                 [[0]; [3]]).
Proof.
  destruct (RBF.init Ref.norm Ref.inv Ref.exp Inputs.two_X Inputs.two_y
              [[0]] None 2) as [self|e] eqn:E.
  - exists self.
    destruct (RBF_classify_all_on_built_model Ref.norm Ref.inv Ref.exp
                Inputs.two_X Inputs.two_y [[0]] None 2 self
                (Mat 1 [[0]; [3]]) Ref_inv_length E)
      as [wv H].
    + discriminate.
    + repeat constructor.
    + exists wv. split; [reflexivity|exact H].
  - assert (H : is_Ok (RBF.init Ref.norm Ref.inv Ref.exp Inputs.two_X
                         Inputs.two_y [[0]] None 2) = true)
      by (vm_compute; reflexivity).
    rewrite E in H. discriminate H.
Defined.

(** [classify_all] of a built [RBFModel] on a batch with no point raises:
    the transformed batch is an empty rank-1 array, which the product with
    the weights refuses. *)
Theorem RBF_classify_all_empty_batch (norm : vec -> Q)
  (inv : list vec -> option (list vec)) (exp : Q -> Q) (X y : ndarray)
  (Mu : list vec) (kern0 : option (Q -> Q)) (r : Q) (self : RBF.RBFModel)
  (d : nat) :
  RBF.init norm inv exp X y Mu kern0 r = Ok self ->
  exists e, RBF.classify_all self (Mat d []) = Err e
            /\ (e = LibValueError \/ e = TypeError).
Proof.
  intros Hinit.
  destruct (RBF_init_Ok_inv _ _ _ _ _ _ _ _ Hinit) as [_ [Hft [_ [_ [wv Hw]]]]].
  unfold RBF.classify_all, RBF.get_w. rewrite Hft, Hw.
  cbn [rows mapM bind array_of_rows try_except_e matmul_vec].
  unfold dot. cbn [length]. destruct wv as [|a wv]; cbn; eauto.
Qed.

Lemma RBF_classify_all_empty_batch_witness :
  exists self e,
    RBF.init Ref.norm Ref.inv Ref.exp Inputs.two_X Inputs.two_y [[0]] None 2
    = Ok self
    /\ RBF.classify_all self (Mat 1 []) = Err e
    /\ (e = LibValueError \/ e = TypeError).
Proof.
  destruct (RBF.init Ref.norm Ref.inv Ref.exp Inputs.two_X Inputs.two_y
              [[0]] None 2) as [self|e] eqn:E.
  - exists self.
    destruct (RBF_classify_all_empty_batch Ref.norm Ref.inv Ref.exp
                Inputs.two_X Inputs.two_y [[0]] None 2 self 1 E)
      as [e H].
    exists e. split; [reflexivity|exact H].
  - assert (H : is_Ok (RBF.init Ref.norm Ref.inv Ref.exp Inputs.two_X
                         Inputs.two_y [[0]] None 2) = true)
      by (vm_compute; reflexivity).
    rewrite E in H. discriminate H.
Defined.

(** A point whose dimension differs from that of a center (neither being
    1) is refused by numpy's subtraction.  In [RBFModel.__init__] the
    transform runs outside any [try] and the [ValueError] comes out as it
    is; in [classify_all] it runs inside [try ... except e] and comes out
    as [NameError]. *)
Theorem RBF_wrong_dimension (norm : vec -> Q)
  (inv : list vec -> option (list vec)) (exp : Q -> Q) (Mu : list vec)
  (kern0 : option (Q -> Q)) (r : Q) (x mu : vec) :
  In mu Mu ->
  length x <> length mu -> length x <> 1%nat -> length mu <> 1%nat ->
  (forall m yv, length (rows m) = length yv -> In x (rows m) ->
     RBF.init norm inv exp (A2 m) (A1 yv) Mu kern0 r = Err LibValueError)
  /\ (forall X y self X0,
        RBF.init norm inv exp X y Mu kern0 r = Ok self ->
        In x (rows X0) ->
        RBF.classify_all self X0 = Err (NameError "e")).
Proof.
  intros Hmu Hx H1 H2.
  assert (Hfx : forall kern, exists e,
             RBF._feat_trans norm Mu kern r x = Err e).
  { intros kern. unfold RBF._feat_trans.
    destruct (@mapM_fails _ _
                (fun mu0 => d <- sub x mu0 ;; Ok (kern (norm d / r)))
                Mu mu LibValueError Hmu) as [e He].
    - rewrite (sub_mismatch x mu Hx H1 H2). reflexivity.
    - rewrite He. cbn [bind]. eauto. }
  split.
  - intros m yv E Hin. unfold RBF.init.
    rewrite (Base_init_valid m yv E). cbn [bind iter_rows].
    destruct (Hfx (RBF.kern_or_default exp kern0)) as [e He].
    destruct (mapM_fails _ _ _ Hin He) as [e' He'].
    rewrite He'. cbn [bind].
    apply mapM_Err_inv in He'. destruct He' as [a [_ Ha]].
    apply RBF_feat_trans_Err in Ha. rewrite Ha. reflexivity.
  - intros X y self X0 Hinit Hin.
    destruct (RBF_init_Ok_inv _ _ _ _ _ _ _ _ Hinit) as [_ [Hft _]].
    destruct (Hfx (RBF.kern_or_default exp kern0)) as [e He].
    unfold RBF.classify_all. rewrite Hft.
    destruct (mapM_fails _ _ _ Hin He) as [e' ->]. reflexivity.
Qed.

Lemma RBF_wrong_dimension_witness :
  RBF.init Ref.norm Ref.inv Ref.exp (A2 (Mat 3 [[0; 0; 0]])) (A1 [1])
           [[0; 0]] None 2
  = Err LibValueError.
Proof.
  refine (proj1 (RBF_wrong_dimension Ref.norm Ref.inv Ref.exp [[0; 0]] None
                   2 [0; 0; 0] [0; 0] _ _ _ _)
                (Mat 3 [[0; 0; 0]]) [1] _ _).
  - left. reflexivity.
  - simpl. lia.
  - simpl. lia.
  - simpl. lia.
  - reflexivity.
  - left. reflexivity.
Defined.

(** ** LinearModel: what construction raises on one training point *)

(** On a training set of one point with at least one feature and a
    system matrix [np.linalg.inv] inverts, [LinearModel.__init__] raises
    [ValueError]: the seed weights have two or more entries, and
    [_calc_E_in] asks for the truth value of [w != None] on them. *)
Theorem LinearModel_init_one_point_raises_ValueError
  (inv : list vec -> option (list vec)) (row : vec) (d : nat) (y0 r : Q)
  (n_iter : Z) (debug : bool) (draws : list nat) (Mi : list vec) :
  (forall M M', inv M = Some M' -> length M' = length M) ->
  (1 <= d)%nat ->
  inv (mat_add (matmul (transpose (S d) [1 :: row]) (S d) [1 :: row])
               (mat_scale r (eye (S d)))) = Some Mi ->
  Linear.init inv (A2 (Mat d [row])) (A1 [y0]) r None n_iter debug draws
  = Some (Err LibValueError).
Proof.
  intros Hshape Hd Hinv. unfold Linear.init.
  rewrite (Base_init_valid (Mat d [row]) [y0] eq_refl).
  cbn [bind Base.X Base.y Base.feat_trans Linear.column_stack_ones_like].
  unfold Linear._train_model, Linear._calc_w_lin.
  cbn [Linear.X Linear.y Linear.r]. rewrite Hinv. cbn [bind].
  set (w_ := matvec _ [y0]).
  assert (Hlen : length w_ = S d).
  { unfold w_, matvec, matmul. rewrite !length_map.
    rewrite (Hshape _ _ Hinv). unfold mat_add.
    rewrite length_map, length_combine. unfold matmul, mat_scale, eye,
      transpose.
    rewrite !length_map, !length_seq. apply Nat.min_id. }
  unfold Linear._calc_E_in.
  destruct w_ as [|a [|b w']]; simpl in Hlen; try lia. reflexivity.
Qed.

Lemma LinearModel_init_one_point_raises_ValueError_witness :
  Linear.init Ref.inv Inputs.one_X Inputs.one_y 1 None 1 false [0%nat]
  = Some (Err LibValueError).
Proof.
  apply (LinearModel_init_one_point_raises_ValueError Ref.inv [1] 1 1 1
           1%Z false [0%nat] [[2 # 3; - (1) # 3]; [- (1) # 3; 2 # 3]]
           Ref_inv_length).
  - lia.
  - vm_compute. reflexivity.
Defined.

Lemma Linear_classify_no_bias_entry_witness :
  Linear.classify Inputs.lin_model [1] (Some [1; 1]) = Err LibValueError.
Proof.
  apply (@Linear_classify_no_bias_entry Inputs.lin_model [1] [1; 1]);
    reflexivity.
Defined.
